(** * BAOU notification monitor: a shallow embedding of [server.js]

    The development follows the source file top-down: the text utilities
    ([detectUrgency], [categorizeNotification], [generateNotificationId],
    [calculatePriority]), then the effectful core ([fetchNotifications],
    [loadPreviousNotifications], [saveNotifications],
    [sendEmailNotification], [monitorNotifications]) written in a small
    state monad over an explicit world (files, clock reads, event trace),
    and last [detectLanguage], the start-up validation and
    [startMonitoring].

    JavaScript strings are sequences of UTF-16 code units and are modelled
    as [list Z].  Host built-ins whose tables are not part of the
    repository ([String.prototype.toLowerCase], [Date] parsing and
    printing, [JSON.parse]/[JSON.stringify]) are section variables. *)

From Stdlib Require Import ZArith List Bool Lia String Ascii Decimal DecimalString.
From stdpp Require Import gmap.
Import ListNotations.

Local Open Scope Z_scope.

(** ** JavaScript strings *)

Module JS.

(** A string value: its UTF-16 code units, each in [0, 65536). *)
Definition jsstring := list Z.

(** An ASCII literal of the source, as code units. *)
Definition str (s : String.string) : jsstring :=
  List.map (fun a => Z.of_nat (nat_of_ascii a)) (list_ascii_of_string s).

(** [s.startsWith(k)], used to define [includes]. *)
Fixpoint startsWith (s k : jsstring) : bool :=
  match k, s with
  | [], _ => true
  | _ :: _, [] => false
  | a :: k', b :: s' => (a =? b) && startsWith s' k'
  end.

(** [s.includes(k)]: [k] occurs in [s] at some position. *)
Fixpoint includes (s k : jsstring) : bool :=
  startsWith s k ||
  match s with
  | [] => false
  | _ :: s' => includes s' k
  end.

(** What [toLowerCase] does to a code unit of an ASCII string. *)
Definition lower_unit (c : Z) : Z :=
  if (65 <=? c) && (c <=? 90) then c + 32 else c.

Definition is_ascii (c : Z) : bool := (0 <=? c) && (c <? 128).

(** The ASCII fragment of [toLowerCase], an instance of the host function
    on the strings it is applied to in the examples. *)
Definition asciiLowerCase (s : jsstring) : jsstring := List.map lower_unit s.

(** [String(n)] for an array length. *)
Fixpoint digits (u : Decimal.uint) : jsstring :=
  match u with
  | Nil => []
  | D0 u' => 48 :: digits u'
  | D1 u' => 49 :: digits u'
  | D2 u' => 50 :: digits u'
  | D3 u' => 51 :: digits u'
  | D4 u' => 52 :: digits u'
  | D5 u' => 53 :: digits u'
  | D6 u' => 54 :: digits u'
  | D7 u' => 55 :: digits u'
  | D8 u' => 56 :: digits u'
  | D9 u' => 57 :: digits u'
  end.

Definition numberToString (n : nat) : jsstring := digits (Nat.to_uint n).

End JS.

Import JS.

(** ** Data model *)

(** The values [categorizeNotification] can return. *)
Inductive Category :=
  EXAM | ASSIGNMENT | SCHEDULE | ANNOUNCEMENT | DEADLINE | OTHER.

Definition Category_eqb (a b : Category) : bool :=
  match a, b with
  | EXAM, EXAM | ASSIGNMENT, ASSIGNMENT | SCHEDULE, SCHEDULE
  | ANNOUNCEMENT, ANNOUNCEMENT | DEADLINE, DEADLINE | OTHER, OTHER => true
  | _, _ => false
  end.

#[global] Instance Category_eq_dec : EqDecision Category.
Proof. solve_decision. Defined.

(** The object literal built in [fetchNotifications]. *)
Record notification := {
  id : jsstring;
  text : jsstring;
  link : option jsstring;
  isNew : bool;
  isUrgent : bool;
  timestamp : jsstring;
  category : Category;
}.

(** ** Classifier *)

Definition urgentKeywords : list jsstring :=
  [ str "urgent"; str "immediate"; str "important"; str "deadline";
    str "today"; str "tomorrow"; str "asap"; str "emergency";
    str "critical"; str "required"; str "mandatory"; str "due";
    (* agatyani *) [2693; 2711; 2724; 2765; 2735; 2728; 2752];
    (* takidani *) [2724; 2750; 2709; 2752; 2726; 2728; 2752] ].

(** [Object.entries(categories)]: the keys in insertion order. *)
Definition categories : list (Category * list jsstring) :=
  [ (EXAM, [ str "exam"; str "examination"; str "test"; str "assessment";
             [2730; 2736; 2752; 2709; 2765; 2743; 2750] ]);
    (ASSIGNMENT, [ str "assignment"; str "homework"; str "submission";
                   [2744; 2765; 2741; 2750; 2727; 2765; 2735; 2750; 2735] ]);
    (SCHEDULE, [ str "schedule"; str "timetable"; str "dates";
                 [2744; 2734; 2735; 2730; 2724; 2765; 2736; 2709] ]);
    (ANNOUNCEMENT, [ str "announcement"; str "notice"; str "circular";
                     [2744; 2754; 2714; 2728; 2750] ]);
    (DEADLINE, [ str "last date"; str "deadline"; str "due date";
                 [2693; 2690; 2724; 2751; 2734; 32;
                  2724; 2750; 2736; 2752; 2710] ]) ].

Section Classifier.

(** The host's [String.prototype.toLowerCase]. *)
Variable toLowerCase : jsstring -> jsstring.

(** [keyword] occurs in [text], ignoring case, at any position. *)
Definition occursIn (keyword text : jsstring) : Prop :=
  exists before after,
    toLowerCase text = before ++ toLowerCase keyword ++ after.

(** Some keyword of the set occurs in [text]. *)
Definition anyOccursIn (keywords : list jsstring) (text : jsstring) : Prop :=
  exists keyword, In keyword keywords /\ occursIn keyword text.

(** [keywords.some(keyword => text.toLowerCase().includes(keyword.toLowerCase()))] *)
Definition someKeyword (text : jsstring) (keywords : list jsstring) : bool :=
  existsb (fun keyword => includes (toLowerCase text) (toLowerCase keyword))
          keywords.

Definition detectUrgency (text : jsstring) : bool :=
  someKeyword text urgentKeywords.

(** The [for ... of] loop with its early [return]. *)
Fixpoint categorizeLoop (entries : list (Category * list jsstring))
         (text : jsstring) : Category :=
  match entries with
  | [] => OTHER
  | (cat, keywords) :: rest =>
      if someKeyword text keywords then cat else categorizeLoop rest text
  end.

Definition categorizeNotification (text : jsstring) : Category :=
  categorizeLoop categories text.

Definition calculatePriority (n : notification) : Z :=
  let score := 0 in
  let score := if isUrgent n then score + 2 else score in
  let score := if isNew n then score + 1 else score in
  let score := if Category_eqb (category n) DEADLINE then score + 1 else score in
  let score :=
    if includes (toLowerCase (text n)) (str "important")
    then score + 1 else score in
  Z.min 5 score.

End Classifier.

(** ** Fingerprinting *)

Definition isHighSurrogate (c : Z) : bool := (55296 <=? c) && (c <=? 56319).
Definition isLowSurrogate (c : Z) : bool := (56320 <=? c) && (c <=? 57343).

(** The UTF-8 bytes of one code point. *)
Definition utf8 (cp : Z) : list Z :=
  if cp <? 128 then [cp]
  else if cp <? 2048 then
    [Z.lor 192 (Z.shiftr cp 6); Z.lor 128 (Z.land cp 63)]
  else if cp <? 65536 then
    [Z.lor 224 (Z.shiftr cp 12); Z.lor 128 (Z.land (Z.shiftr cp 6) 63);
     Z.lor 128 (Z.land cp 63)]
  else
    [Z.lor 240 (Z.shiftr cp 18); Z.lor 128 (Z.land (Z.shiftr cp 12) 63);
     Z.lor 128 (Z.land (Z.shiftr cp 6) 63); Z.lor 128 (Z.land cp 63)].

(** U+FFFD, written for a surrogate without its partner. *)
Definition replacement : list Z := [239; 191; 189].

(** [Buffer.from(s)]: the UTF-8 encoding of a string. *)
Fixpoint Buffer_from (s : jsstring) : list Z :=
  match s with
  | [] => []
  | c :: rest =>
      if isHighSurrogate c then
        match rest with
        | d :: rest' =>
            if isLowSurrogate d
            then utf8 (65536 + (c - 55296) * 1024 + (d - 56320))
                   ++ Buffer_from rest'
            else replacement ++ Buffer_from rest
        | [] => replacement
        end
      else if isLowSurrogate c then replacement ++ Buffer_from rest
      else utf8 c ++ Buffer_from rest
  end.

Definition base64Alphabet : jsstring :=
  str "ABCDEFGHIJKLMNOPQRSTUVWXYZabcdefghijklmnopqrstuvwxyz0123456789+/".

Definition base64Char (i : Z) : Z := nth (Z.to_nat i) base64Alphabet 0.

(** [buf.toString("base64")], padded with '='. *)
Fixpoint toBase64 (bytes : list Z) : jsstring :=
  match bytes with
  | [] => []
  | [a] =>
      [base64Char (Z.shiftr a 2); base64Char (Z.shiftl (Z.land a 3) 4); 61; 61]
  | [a; b] =>
      [base64Char (Z.shiftr a 2);
       base64Char (Z.lor (Z.shiftl (Z.land a 3) 4) (Z.shiftr b 4));
       base64Char (Z.shiftl (Z.land b 15) 2); 61]
  | a :: b :: c :: rest =>
      base64Char (Z.shiftr a 2)
      :: base64Char (Z.lor (Z.shiftl (Z.land a 3) 4) (Z.shiftr b 4))
      :: base64Char (Z.lor (Z.shiftl (Z.land b 15) 2) (Z.shiftr c 6))
      :: base64Char (Z.land c 63)
      :: toBase64 rest
  end.

(** [s.slice(b, e)] for in-range, non-negative bounds. *)
Definition slice (s : jsstring) (b e : nat) : jsstring :=
  firstn (e - b) (skipn b s).

(** The template literal [`${text}-${timestamp}`]. *)
Definition idSource (text timestamp : jsstring) : jsstring :=
  text ++ str "-" ++ timestamp.

Definition generateNotificationId (text timestamp : jsstring) : jsstring :=
  slice (toBase64 (Buffer_from (idSource text timestamp))) 0 12.

(** ** Configuration *)

Module CONFIG.
Definition storageFile : jsstring := str "previous-notifications.json".
End CONFIG.

(** ** The world of the process *)

(** A thrown value: [error.code] (undefined for a [SyntaxError] or a
    [TypeError]) and whether [error.response] is set. *)
Record error := { code : option jsstring; response : bool }.

Definition ENOENT : error := {| code := Some (str "ENOENT"); response := false |}.
Definition SyntaxError : error := {| code := None; response := false |}.
Definition TypeError : error := {| code := None; response := false |}.

(** The object handed to [resend.emails.send]; [from], [to] and [replyTo]
    are configuration constants. *)
Record emailData := { subject : jsstring; html : jsstring }.

(** What the process does to the outside, in order.  A console event
    keeps the fixed part of the message. *)
Inductive event :=
| EvConsole (isError : bool) (label : String.string)
| EvWriteFile (file data : jsstring) (ok : bool)
| EvSend (email : emailData) (ok : bool).

Record world := {
  files : gmap jsstring jsstring;  (* the working directory *)
  ticks : nat;                     (* clock reads made so far *)
  trace : list event;
}.

(** One [li] of [.dpul] as cheerio presents it: its trimmed text without
    images, the [href] of its anchor, and whether it carries the "new" gif. *)
Record li := { li_text : jsstring; li_href : option jsstring; li_new : bool }.

(** What the outside answers during one run. *)
Record env := {
  clock : nat -> Z;                  (* successive readings of the system clock *)
  axios_get : list li + error;       (* the page's items, or the request's error *)
  readFile_error : option error;     (* reading an existing file may still fail *)
  writeFile_error : jsstring -> option error;  (* per file name *)
  resend_send : option error;        (* [None]: the mail was accepted *)
}.

Inductive result (A : Type) :=
| Ok (a : A)
| Throw (err : error).
Arguments Ok {A} a.
Arguments Throw {A} err.

(** Computations of the process: state passing with exceptions. *)
Definition M (A : Type) : Type := world -> result A * world.

Definition ret {A} (a : A) : M A := fun w => (Ok a, w).

Definition throw {A} (err : error) : M A := fun w => (Throw err, w).

Definition bind {A B} (c : M A) (k : A -> M B) : M B :=
  fun w =>
    match c w with
    | (Ok a, w') => k a w'
    | (Throw err, w') => (Throw err, w')
    end.

(** [try { body } catch (error) { handler }] *)
Definition tryCatch {A} (body : M A) (handler : error -> M A) : M A :=
  fun w =>
    match body w with
    | (Ok a, w') => (Ok a, w')
    | (Throw err, w') => handler err w'
    end.

Declare Scope io_scope.
Delimit Scope io_scope with io.
Notation "x <- c1 ;; c2" := (bind c1 (fun x => c2))
  (at level 100, c1 at next level, right associativity) : io_scope.
Notation "c1 ;; c2" := (bind c1 (fun _ => c2))
  (at level 100, right associativity) : io_scope.

Definition emit (ev : event) : M unit :=
  fun w =>
    (Ok tt, {| files := files w; ticks := ticks w; trace := trace w ++ [ev] |}).

Definition console_log (label : String.string) : M unit :=
  emit (EvConsole false label).

Definition console_error (label : String.string) : M unit :=
  emit (EvConsole true label).

(** [some] and [filter] with a callback that acts on the world. *)
Fixpoint someM {A} (p : A -> M bool) (l : list A) : M bool :=
  match l with
  | [] => ret false
  | x :: l' => (b <- p x ;; if b then ret true else someM p l')%io
  end.

Fixpoint filterM {A} (p : A -> M bool) (l : list A) : M (list A) :=
  match l with
  | [] => ret []
  | x :: l' =>
      (b <- p x ;;
       rest <- filterM p l' ;;
       ret (if b then x :: rest else rest))%io
  end.

Fixpoint mapM {A B} (f : A -> M B) (l : list A) : M (list B) :=
  match l with
  | [] => ret []
  | x :: l' => (y <- f x ;; ys <- mapM f l' ;; ret (y :: ys))%io
  end.

(** [a === b] on strings. *)
Fixpoint strictEquals (a b : jsstring) : bool :=
  match a, b with
  | [], [] => true
  | x :: a', y :: b' => (x =? y) && strictEquals a' b'
  | _, _ => false
  end.

(** [a > b] on two [Date] objects, [None] being an invalid date. *)
Definition Date_gt (a b : option Z) : bool :=
  match a, b with
  | Some x, Some y => y <? x
  | _, _ => false
  end.

(** The mails handed to the mailer in a trace, accepted or not. *)
Fixpoint sends (tr : list event) : list emailData :=
  match tr with
  | [] => []
  | EvSend email _ :: tr' => email :: sends tr'
  | _ :: tr' => sends tr'
  end.

(** Whether a trace holds an attempt to write [file]. *)
Fixpoint attemptsWrite (file : jsstring) (tr : list event) : bool :=
  match tr with
  | [] => false
  | EvWriteFile f _ _ :: tr' => strictEquals f file || attemptsWrite file tr'
  | _ :: tr' => attemptsWrite file tr'
  end.

(** A computation that leaves the files alone and sends no mail. *)
Definition quiet {A} (c : M A) : Prop :=
  forall w, files (snd (c w)) = files w /\
            sends (trace (snd (c w))) = sends (trace w).

(** A computation that does not throw. *)
Definition total {A} (c : M A) : Prop :=
  forall w, exists a, fst (c w) = Ok a.

(** The subject line of [sendEmailNotification]. *)
Definition emailSubject (newNotifications : list notification) : jsstring :=
  str "BAOU: " ++ numberToString (length newNotifications)
  ++ str " New Notification"
  ++ (if negb (Nat.eqb (length newNotifications) 1) then str "s" else [])
  ++ (if existsb isUrgent newNotifications then str " (URGENT)" else []).

(** ** Core functions *)

Section Core.

(** Host functions: [String.prototype.toLowerCase],
    [Date.prototype.toISOString] on a time value, [new Date(string)]
    ([None] for an invalid date), [new URL(href, base).href] ([None] when
    it throws), [JSON.stringify(_, null, 2)] and [JSON.parse] on the
    history ([None] for a [SyntaxError]; the history file holds an array
    of notices or no JSON at all). *)
Variable toLowerCase : jsstring -> jsstring.
Variable toISOString : Z -> jsstring.
Variable parseDate : jsstring -> option Z.
Variable URL_href : jsstring -> option jsstring.
Variable JSON_stringify : list notification -> jsstring.
Variable JSON_parse : jsstring -> option (list notification).

(** The markup of [generateEmailHTML], as a function of the notices and of
    the two readings of the clock it prints. *)
Variable generateEmailHTML : list notification -> Z -> Z -> jsstring.

Variable E : env.

Local Open Scope io_scope.

(** [Date.now()] and [new Date()]: the next reading of the clock. *)
Definition Date_now : M Z :=
  fun w =>
    (Ok (clock E (ticks w)),
     {| files := files w; ticks := S (ticks w); trace := trace w |}).

(** [readFile(file, "utf8")] *)
Definition readFile (file : jsstring) : M jsstring :=
  fun w =>
    match files w !! file with
    | None => (Throw ENOENT, w)
    | Some data =>
        match readFile_error E with
        | Some err => (Throw err, w)
        | None => (Ok data, w)
        end
    end.

(** [writeFile(file, data)]; a write that fails leaves the file as it was. *)
Definition writeFile (file data : jsstring) : M unit :=
  fun w =>
    match writeFile_error E file with
    | None =>
        (Ok tt,
         {| files := <[file := data]> (files w); ticks := ticks w;
            trace := trace w ++ [EvWriteFile file data true] |})
    | Some err =>
        (Throw err,
         {| files := files w; ticks := ticks w;
            trace := trace w ++ [EvWriteFile file data false] |})
    end.

(** [resend.emails.send(emailData)] with the destructuring of its answer. *)
Definition resend_emails_send (email : emailData) : M unit :=
  fun w =>
    match resend_send E with
    | None =>
        (Ok tt,
         {| files := files w; ticks := ticks w;
            trace := trace w ++ [EvSend email true] |})
    | Some err =>
        (Throw err,
         {| files := files w; ticks := ticks w;
            trace := trace w ++ [EvSend email false] |})
    end.

(** The callback of [$(".dpul li").each]. *)
Definition buildNotification (element : li) : M notification :=
  let text := li_text element in
  t1 <- Date_now ;;
  link <- match li_href element with
          | Some (c :: href) =>
              match URL_href (c :: href) with
              | Some u => ret (Some u)
              | None => throw TypeError
              end
          | _ => ret None
          end ;;
  t2 <- Date_now ;;
  ret {| id := generateNotificationId text (toISOString t1);
         text := text;
         link := link;
         isNew := li_new element;
         isUrgent := detectUrgency toLowerCase text;
         timestamp := toISOString t2;
         category := categorizeNotification toLowerCase text |}.

(** Returns [None] for the source's [null]. *)
Definition fetchNotifications : M (option (list notification)) :=
  tryCatch
    (match axios_get E with
     | inl items =>
         notifications <- mapM buildNotification items ;;
         ret (Some notifications)
     | inr err => throw err
     end)
    (fun err =>
       console_error "Error fetching notifications:" ;;
       (if response err then console_error "Status:" else ret tt) ;;
       ret None).

Definition loadPreviousNotifications : M (list notification) :=
  tryCatch
    (data <- readFile CONFIG.storageFile ;;
     match JSON_parse data with
     | Some history => ret history
     | None => throw SyntaxError
     end)
    (fun err =>
       (match code err with
        | Some c =>
            if strictEquals c (str "ENOENT") then ret tt
            else console_error "Error loading previous notifications:"
        | None => console_error "Error loading previous notifications:"
        end) ;;
       ret []).

Definition saveNotifications (notifications : list notification) : M unit :=
  tryCatch
    (let backupFile := CONFIG.storageFile ++ str ".backup" in
     writeFile backupFile (JSON_stringify notifications) ;;
     writeFile CONFIG.storageFile (JSON_stringify notifications))
    (fun err => console_error "Error saving notifications:").

Definition sendEmailNotification (newNotifications : list notification)
  : M bool :=
  console_log "Preparing to send enhanced email notification..." ;;
  t1 <- Date_now ;;
  t2 <- Date_now ;;
  let emailContent := generateEmailHTML newNotifications t1 t2 in
  let email := {| subject := emailSubject newNotifications;
                  html := emailContent |} in
  tryCatch
    (resend_emails_send email ;;
     console_log "Email sent successfully with ID:" ;;
     ret true)
    (fun err =>
       console_error "Failed to send email:" ;;
       (if response err then console_error "API Response:" else ret tt) ;;
       ret false).

(** The callback of [previousNotifications.some]. *)
Definition alreadySeen (current prev : notification) : M bool :=
  if strictEquals (id prev) (id current) then ret true
  else if strictEquals (text prev) (text current) then
    now <- Date_now ;;
    ret (Date_gt (parseDate (timestamp prev))
                 (Some (now - 24 * 60 * 60 * 1000)))
  else ret false.

(** What the callback answers when every reading of the clock is [now]. *)
Definition duplicateOf (now : Z) (current prev : notification) : bool :=
  strictEquals (id prev) (id current)
  || (strictEquals (text prev) (text current)
      && Date_gt (parseDate (timestamp prev)) (Some (now - 86400000))).

(** The [filter] of [monitorNotifications]. *)
Definition diffNotifications (currentNotifications previousNotifications
                              : list notification) : M (list notification) :=
  filterM (fun current =>
             seen <- someM (alreadySeen current) previousNotifications ;;
             ret (negb seen))
          currentNotifications.

(** A history entry stamped later than 24 hours before [now]. *)
Definition recent (now : Z) (prev : notification) : Prop :=
  exists t, parseDate (timestamp prev) = Some t /\ now - 86400000 < t.

(** No history entry has the id of [current], and none has its text and a
    recent timestamp. *)
Definition isFresh (now : Z) (history : list notification)
           (current : notification) : Prop :=
  forall prev, In prev history ->
    id prev <> id current /\ ~ (text prev = text current /\ recent now prev).

Definition monitorNotifications : M unit :=
  Date_now ;;
  console_log "Checking for new notifications..." ;;
  previousNotifications <- loadPreviousNotifications ;;
  fetched <- fetchNotifications ;;
  match fetched with
  | None => console_log "Failed to fetch notifications. Will retry next time."
  | Some currentNotifications =>
      newNotifications <-
        diffNotifications currentNotifications previousNotifications ;;
      if (0 <? length newNotifications)%nat then
        console_log "Found new notifications" ;;
        emailSent <- sendEmailNotification newNotifications ;;
        if emailSent
        then saveNotifications (newNotifications ++ previousNotifications)
        else ret tt
      else console_log "No new notifications found"
  end.

End Core.

(** ** A page, a clock and host functions to run the code on *)

Module Sample.

Definition notice : jsstring := str "Final exam schedule announced".

(** 2024-01-01T00:00:00.000Z and the instant 25 hours later. *)
Definition earlier : Z := 1704067200000.
Definition later : Z := earlier + 25 * 60 * 60 * 1000.

Definition toISOString (t : Z) : jsstring :=
  if t =? earlier then str "2024-01-01T00:00:00.000Z"
  else if t =? later then str "2024-01-02T01:00:00.000Z"
  else [].

Definition parseDate (s : jsstring) : option Z :=
  if strictEquals s (str "2024-01-01T00:00:00.000Z") then Some earlier
  else if strictEquals s (str "2024-01-02T01:00:00.000Z") then Some later
  else None.

Definition URL_href (href : jsstring) : option jsstring := Some href.

(** Stand-ins for the serializer: one id per line, and a parser that
    knows the one history written in the runs below. *)
Definition JSON_stringify (notifications : list notification) : jsstring :=
  flat_map (fun n => id n ++ [10]) notifications.

Definition generateEmailHTML (notifications : list notification)
           (t1 t2 : Z) : jsstring := [].

Definition page : list li :=
  [ {| li_text := notice; li_href := None; li_new := true |} ].

(** The page answers, the mailer accepts, the disk refuses the files that
    [refused] selects. *)
Definition host (now : Z) (refused : jsstring -> bool) : env :=
  {| clock := fun _ => now;
     axios_get := inl page;
     readFile_error := None;
     writeFile_error :=
       fun file =>
         if refused file
         then Some {| code := Some (str "EACCES"); response := false |}
         else None;
     resend_send := None |}.

Definition start : world := {| files := ∅; ticks := 0; trace := [] |}.

(** The notice as scraped at [t]. *)
Definition scraped (t : Z) : notification :=
  {| id := generateNotificationId notice (toISOString t);
     text := notice;
     link := None;
     isNew := true;
     isUrgent := detectUrgency asciiLowerCase notice;
     timestamp := toISOString t;
     category := categorizeNotification asciiLowerCase notice |}.

(** Reads back the history holding the notice scraped at [earlier]. *)
Definition JSON_parse (data : jsstring) : option (list notification) :=
  if strictEquals data (JSON_stringify [scraped earlier])
  then Some [scraped earlier]
  else None.

(** One cycle at clock reading [now], on a disk that accepts every write. *)
Definition cycle (now : Z) (w : world) : world :=
  snd (monitorNotifications asciiLowerCase toISOString parseDate URL_href
         JSON_stringify JSON_parse generateEmailHTML
         (host now (fun _ => false)) w).

End Sample.

(** ** Language tag *)

(** The class [[઀-૿]] of the regular expression, which has no
    [u] flag and so tests code units. *)
Definition inGujaratiBlock (c : Z) : bool := (2688 <=? c) && (c <=? 2815).

Definition detectLanguage (text : jsstring) : jsstring :=
  if existsb inGujaratiBlock text then str "gujarati" else str "english".

(** ** What a scrape builds *)

Section Scrape.

Variable toLowerCase : jsstring -> jsstring.
Variable toISOString : Z -> jsstring.
Variable URL_href : jsstring -> option jsstring.

(** The [link] field: [null] without a non-empty [href]. *)
Definition linkOf (element : li) : option jsstring :=
  match li_href element with
  | Some (c :: href) => URL_href (c :: href)
  | _ => None
  end.

(** [new URL] does not throw on the element's [href]. *)
Definition resolves (element : li) : bool :=
  match li_href element with
  | Some (c :: href) =>
      match URL_href (c :: href) with Some _ => true | None => false end
  | _ => true
  end.

(** The notification built from an element whose link resolves, when the
    clock reads [t1] for the id and [t2] for the timestamp. *)
Definition scrapeOne (t1 t2 : Z) (element : li) : notification :=
  {| id := generateNotificationId (li_text element) (toISOString t1);
     text := li_text element;
     link := linkOf element;
     isNew := li_new element;
     isUrgent := detectUrgency toLowerCase (li_text element);
     timestamp := toISOString t2;
     category := categorizeNotification toLowerCase (li_text element) |}.

End Scrape.

(** ** Start-up *)

Definition requiredEnvVars : list jsstring :=
  [ str "RESEND_API_KEY"; str "EMAIL_TO" ].

(** [!process.env[envVar]]: the variable is unset or empty. *)
Definition envMissing (penv : gmap jsstring jsstring) (envVar : jsstring)
  : bool :=
  match penv !! envVar with
  | Some (_ :: _) => false
  | _ => true
  end.

(** The validation loop at the top of the file: the variable named in the
    error message when the process exits with status 1, [None] when the
    loop runs through. *)
Fixpoint validateLoop (penv : gmap jsstring jsstring) (vars : list jsstring)
  : option jsstring :=
  match vars with
  | [] => None
  | envVar :: rest =>
      if envMissing penv envVar then Some envVar else validateLoop penv rest
  end.

Definition validateEnvironment (penv : gmap jsstring jsstring)
  : option jsstring :=
  validateLoop penv requiredEnvVars.

(** How [startMonitoring] ends: the interval timer and the process
    handlers are installed, or the process has exited. *)
Inductive startup :=
| Scheduled
| Exited (status : Z).

Section Startup.

Variable toLowerCase : jsstring -> jsstring.
Variable toISOString : Z -> jsstring.
Variable parseDate : jsstring -> option Z.
Variable URL_href : jsstring -> option jsstring.
Variable JSON_stringify : list notification -> jsstring.
Variable JSON_parse : jsstring -> option (list notification).
Variable generateEmailHTML : list notification -> Z -> Z -> jsstring.
Variable E : env.

Local Open Scope io_scope.

Definition startMonitoring : M startup :=
  console_log "Starting enhanced BAOU notification monitoring service..." ;;
  console_log "Configuration: Check interval =" ;;
  tryCatch
    (loadPreviousNotifications JSON_parse E ;; ret tt)
    (fun error => saveNotifications JSON_stringify E []) ;;
  tryCatch
    (monitorNotifications toLowerCase toISOString parseDate URL_href
                          JSON_stringify JSON_parse generateEmailHTML E ;;
     ret Scheduled)
    (fun error =>
       console_error "Fatal error in monitoring service:" ;;
       ret (Exited 1)).

(** The callback given to [setInterval]. *)
Definition intervalCallback : M unit :=
  tryCatch
    (monitorNotifications toLowerCase toISOString parseDate URL_href
                          JSON_stringify JSON_parse generateEmailHTML E)
    (fun error => console_error "Error in monitoring cycle:").

End Startup.

(** ** A page with a link the host refuses *)

Module Fixture.

(** Accepts what starts with a slash, as a path on the site. *)
Definition URL_href (href : jsstring) : option jsstring :=
  if startsWith href (str "/") then Some (str "https://baou.edu.in" ++ href)
  else None.

Definition goodItem : li :=
  {| li_text := str "Assignment submission dates";
     li_href := Some (str "/assignment.pdf"); li_new := false |}.

Definition badItem : li :=
  {| li_text := str "Exam form"; li_href := Some (str "http://["); li_new := true |}.

Definition host (items : list li) : env :=
  {| clock := fun k => Sample.earlier + Z.of_nat k;
     axios_get := inl items;
     readFile_error := None;
     writeFile_error := fun _ => None;
     resend_send := None |}.

(** Two different notices that begin alike, the first as it sits in the
    history after a scrape at [Sample.earlier]. *)
Definition julyText : jsstring := str "Admission notice for July 2024".
Definition januaryText : jsstring := str "Admission notice for January 2025".

Definition julyStored : notification :=
  {| id := generateNotificationId julyText
             (Sample.toISOString Sample.earlier);
     text := julyText; link := None; isNew := false; isUrgent := false;
     timestamp := Sample.toISOString Sample.earlier;
     category := ANNOUNCEMENT |}.

Definition januaryScraped : notification :=
  {| id := generateNotificationId januaryText
             (Sample.toISOString Sample.later);
     text := januaryText; link := None; isNew := true; isUrgent := false;
     timestamp := Sample.toISOString Sample.later;
     category := ANNOUNCEMENT |}.

(** A process environment with both variables set. *)
Definition penv : gmap jsstring jsstring :=
  <[str "EMAIL_TO" := str "student@example.org"]>
    (<[str "RESEND_API_KEY" := str "re_123"]> ∅).

End Fixture.

(** * Properties *)

(** ** Substring search *)

Lemma startsWith_spec (s k : jsstring) :
  startsWith s k = true <-> exists after, s = k ++ after.
Proof.
  revert s; induction k as [|a k IH]; intros s; simpl.
  - split; [intros _; exists s; reflexivity | destruct s; reflexivity].
  - destruct s as [|b s].
    + split; [discriminate | intros [after H]; discriminate].
    + simpl. rewrite andb_true_iff, Z.eqb_eq, IH. split.
      * intros [-> [after ->]]. exists after. reflexivity.
      * intros [after H]. injection H as -> ->. eauto.
Qed.

Lemma includes_spec (s k : jsstring) :
  includes s k = true <-> exists before after, s = before ++ k ++ after.
Proof.
  induction s as [|c s IH]; cbn [includes];
    rewrite orb_true_iff, startsWith_spec.
  - split.
    + intros [[after H]|H]; [|discriminate]. exists [], after. exact H.
    + intros [before [after H]]. left.
      destruct before as [|b before]; [|discriminate]. eauto.
  - rewrite IH. split.
    + intros [[after H]|[before [after H]]].
      * exists [], after. exact H.
      * exists (c :: before), after. simpl. congruence.
    + intros [[|b before] [after H]].
      * left. eauto.
      * right. injection H as -> ->. eauto.
Qed.

(** ** Classifier *)

Section ClassifierFacts.

Variable toLowerCase : jsstring -> jsstring.

Lemma someKeyword_spec (text : jsstring) (keywords : list jsstring) :
  someKeyword toLowerCase text keywords = true <->
  anyOccursIn toLowerCase keywords text.
Proof.
  unfold someKeyword, anyOccursIn, occursIn. rewrite existsb_exists.
  split; intros [kw [Hin H]]; exists kw; split; try exact Hin;
    apply includes_spec; exact H.
Qed.

(** C5: [detectUrgency] answers true exactly when some keyword of the fixed
    list occurs in the text ignoring case; the occurrence may be anywhere,
    with arbitrary code units before and after it, so a keyword inside a
    longer word counts. *)
Theorem detectUrgency_iff_keyword_occurs (text : jsstring) :
  detectUrgency toLowerCase text = true <->
  exists keyword, In keyword urgentKeywords /\
    exists before after,
      toLowerCase text = before ++ toLowerCase keyword ++ after.
Proof. unfold detectUrgency. apply someKeyword_spec. Qed.

Lemma categorizeLoop_spec (entries : list (Category * list jsstring))
      (text : jsstring) :
  (categorizeLoop toLowerCase entries text = OTHER /\
   forall cat kws, In (cat, kws) entries -> ~ anyOccursIn toLowerCase kws text)
  \/
  (exists before kws after,
     entries = before ++ (categorizeLoop toLowerCase entries text, kws) :: after /\
     anyOccursIn toLowerCase kws text /\
     forall cat kws', In (cat, kws') before ->
                      ~ anyOccursIn toLowerCase kws' text).
Proof.
  induction entries as [|[cat kws] rest IH]; cbn [categorizeLoop].
  - left. split; [reflexivity | intros ? ? []].
  - destruct (someKeyword toLowerCase text kws) eqn:Hm.
    + right. exists [], kws, rest. split; [reflexivity|].
      split; [apply someKeyword_spec; exact Hm | intros ? ? []].
    + assert (Hno : ~ anyOccursIn toLowerCase kws text).
      { intros H. apply someKeyword_spec in H. congruence. }
      destruct IH as [[Ho Hall]|[before [kws' [after [He [Hk Hall]]]]]].
      * left. split; [exact Ho|].
        intros c k [Heq|Hin]; [injection Heq as <- <-; exact Hno | eauto].
      * right. exists ((cat, kws) :: before), kws', after.
        split; [simpl; f_equal; exact He|]. split; [exact Hk|].
        intros c k [Heq|Hin]; [injection Heq as <- <-; exact Hno | eauto].
Qed.

(** C3: the score is the capped sum of the four weights, lies in [0,5],
    and does not decrease when contributions are switched on. *)
Theorem calculatePriority_weights (n : notification) :
  calculatePriority toLowerCase n =
    Z.min 5 ((if isUrgent n then 2 else 0)
             + (if isNew n then 1 else 0)
             + (if decide (category n = DEADLINE) then 1 else 0)
             + (if includes (toLowerCase (text n)) (str "important")
                then 1 else 0)) /\
  0 <= calculatePriority toLowerCase n <= 5 /\
  (forall n' : notification,
     (isUrgent n = true -> isUrgent n' = true) ->
     (isNew n = true -> isNew n' = true) ->
     (category n = DEADLINE -> category n' = DEADLINE) ->
     (includes (toLowerCase (text n)) (str "important") = true ->
      includes (toLowerCase (text n')) (str "important") = true) ->
     calculatePriority toLowerCase n <= calculatePriority toLowerCase n').
Proof.
  unfold calculatePriority.
  assert (Hc : forall c, Category_eqb c DEADLINE
                         = if decide (c = DEADLINE) then true else false).
  { intros c. destruct c; reflexivity. }
  rewrite Hc. split; [|split].
  - destruct (isUrgent n), (isNew n), (decide (category n = DEADLINE)),
      (includes (toLowerCase (text n)) (str "important")); reflexivity.
  - destruct (isUrgent n), (isNew n), (decide (category n = DEADLINE)),
      (includes (toLowerCase (text n)) (str "important")); lia.
  - intros n' Hu Hn Hd Hi. rewrite Hc.
    destruct (isUrgent n); [rewrite (Hu eq_refl)|];
      (destruct (isNew n); [rewrite (Hn eq_refl)|]);
      (destruct (decide (category n = DEADLINE)) as [e|_];
       [destruct (decide (category n' = DEADLINE)) as [_|ne];
        [|destruct (ne (Hd e))]|]);
      (destruct (includes (toLowerCase (text n)) (str "important"));
       [rewrite (Hi eq_refl)|]);
      repeat match goal with
             | |- context [if ?b then _ else _] => destruct b
             end; lia.
Qed.

(** On a string of ASCII code units the host lowers A-Z and nothing else. *)
Hypothesis toLowerCase_ascii :
  forall s, forallb is_ascii s = true -> toLowerCase s = asciiLowerCase s.

Lemma toLowerCase_important :
  toLowerCase (str "important") = str "important".
Proof. rewrite toLowerCase_ascii; reflexivity. Qed.

(** C4: the result is the first category, in the order EXAM, ASSIGNMENT,
    SCHEDULE, ANNOUNCEMENT, DEADLINE, one of whose keywords occurs in the
    text ignoring case, and OTHER when no keyword of any category occurs;
    "Final exam schedule announced" is an EXAM. *)
Theorem categorizeNotification_first_match (text : jsstring) :
  List.map fst categories = [EXAM; ASSIGNMENT; SCHEDULE; ANNOUNCEMENT; DEADLINE] /\
  ((categorizeNotification toLowerCase text = OTHER /\
    forall cat kws, In (cat, kws) categories ->
                    ~ anyOccursIn toLowerCase kws text)
   \/
   (exists before kws after,
      categories
        = before ++ (categorizeNotification toLowerCase text, kws) :: after /\
      anyOccursIn toLowerCase kws text /\
      forall cat kws', In (cat, kws') before ->
                       ~ anyOccursIn toLowerCase kws' text)) /\
  categorizeNotification toLowerCase (str "Final exam schedule announced")
    = EXAM.
Proof.
  split; [reflexivity|]. split; [apply categorizeLoop_spec|].
  unfold categorizeNotification, categories. cbn [categorizeLoop].
  unfold someKeyword. cbn [existsb].
  rewrite (toLowerCase_ascii (str "Final exam schedule announced") eq_refl).
  rewrite (toLowerCase_ascii (str "exam") eq_refl).
  reflexivity.
Qed.

(** C10: a text containing "important" is urgent, so a notice whose
    [isUrgent] was computed from its own text never earns the "important"
    point without the two urgency points: its score is at least 3. *)
Theorem important_implies_urgent :
  (forall text : jsstring,
     includes (toLowerCase text) (str "important") = true ->
     detectUrgency toLowerCase text = true) /\
  (forall n : notification,
     isUrgent n = detectUrgency toLowerCase (text n) ->
     includes (toLowerCase (text n)) (str "important") = true ->
     isUrgent n = true /\ 3 <= calculatePriority toLowerCase n).
Proof.
  assert (H : forall text : jsstring,
             includes (toLowerCase text) (str "important") = true ->
             detectUrgency toLowerCase text = true).
  { intros text Hi. unfold detectUrgency, someKeyword.
    apply existsb_exists. exists (str "important"). split.
    - unfold urgentKeywords. simpl. tauto.
    - rewrite toLowerCase_important. exact Hi. }
  split; [exact H|].
  intros n Hu Hi. pose proof (H _ Hi) as Hd. rewrite <- Hu in Hd.
  split; [exact Hd|].
  unfold calculatePriority. rewrite Hd, Hi.
  destruct (isNew n), (Category_eqb (category n) DEADLINE); lia.
Qed.

End ClassifierFacts.

(** ** Fingerprinting *)

Lemma Buffer_from_separator_bounded (n : nat) :
  forall a b : jsstring,
    (length a <= n)%nat ->
    Buffer_from (a ++ 45 :: b) = Buffer_from a ++ 45 :: Buffer_from b.
Proof.
  induction n as [|n IH]; intros a b Hl.
  - destruct a; [reflexivity | simpl in Hl; lia].
  - destruct a as [|c [|d rest]].
    + reflexivity.
    + cbn [app]. cbn [Buffer_from].
      change (isLowSurrogate 45) with false. cbn iota.
      change (isHighSurrogate 45) with false. cbn iota.
      destruct (isHighSurrogate c); [reflexivity|].
      destruct (isLowSurrogate c); [reflexivity|].
      rewrite <- app_assoc. reflexivity.
    + change ((c :: d :: rest) ++ 45 :: b)
        with (c :: d :: (rest ++ 45 :: b)).
      assert (Hd : Buffer_from (d :: rest ++ 45 :: b)
                   = Buffer_from (d :: rest) ++ 45 :: Buffer_from b).
      { apply (IH (d :: rest) b). simpl in *. lia. }
      assert (Hr : Buffer_from (rest ++ 45 :: b)
                   = Buffer_from rest ++ 45 :: Buffer_from b).
      { apply (IH rest b). simpl in *. lia. }
      change (Buffer_from (c :: d :: rest ++ 45 :: b))
        with (if isHighSurrogate c then
                if isLowSurrogate d
                then utf8 (65536 + (c - 55296) * 1024 + (d - 56320))
                       ++ Buffer_from (rest ++ 45 :: b)
                else replacement ++ Buffer_from (d :: rest ++ 45 :: b)
              else if isLowSurrogate c
                   then replacement ++ Buffer_from (d :: rest ++ 45 :: b)
                   else utf8 c ++ Buffer_from (d :: rest ++ 45 :: b)).
      change (Buffer_from (c :: d :: rest))
        with (if isHighSurrogate c then
                if isLowSurrogate d
                then utf8 (65536 + (c - 55296) * 1024 + (d - 56320))
                       ++ Buffer_from rest
                else replacement ++ Buffer_from (d :: rest)
              else if isLowSurrogate c
                   then replacement ++ Buffer_from (d :: rest)
                   else utf8 c ++ Buffer_from (d :: rest)).
      rewrite Hd, Hr.
      destruct (isHighSurrogate c), (isLowSurrogate d), (isLowSurrogate c);
        rewrite <- app_assoc; reflexivity.
Qed.

(** The separator of the template literal splits the encoding: no surrogate
    pair can span it. *)
Lemma Buffer_from_idSource (text timestamp : jsstring) :
  Buffer_from (idSource text timestamp)
  = Buffer_from text ++ 45 :: Buffer_from timestamp.
Proof.
  unfold idSource. change (str "-" ++ timestamp) with (45 :: timestamp).
  apply (Buffer_from_separator_bounded (length text)). lia.
Qed.

(** Twelve base64 characters spell nine bytes. *)
Lemma toBase64_first12 (bytes : list Z) :
  firstn 12 (toBase64 bytes) = toBase64 (firstn 9 bytes).
Proof.
  do 9 (destruct bytes as [|? bytes]; [reflexivity|]).
  reflexivity.
Qed.

Lemma generateNotificationId_prefix (text timestamp : jsstring) :
  generateNotificationId text timestamp
  = toBase64 (firstn 9 (Buffer_from text ++ 45 :: Buffer_from timestamp)).
Proof.
  unfold generateNotificationId, slice. cbn [Nat.sub]. rewrite skipn_O.
  rewrite toBase64_first12, Buffer_from_idSource. reflexivity.
Qed.

(** The id keeps twelve base64 characters, that is the first nine bytes of
    the UTF-8 encoding of the text, a dash and the timestamp; a text of
    nine bytes or more fills them, and the timestamp no longer enters the
    id. *)
Lemma generateNotificationId_ignores_timestamp (text t1 t2 : jsstring) :
  (9 <= length (Buffer_from text))%nat ->
  generateNotificationId text t1 = generateNotificationId text t2.
Proof.
  intros Hlen. rewrite !generateNotificationId_prefix.
  rewrite !firstn_app.
  replace (9 - length (Buffer_from text))%nat with 0%nat by lia.
  reflexivity.
Qed.

(** ** The monad *)

Lemma sends_app (a b : list event) : sends (a ++ b) = sends a ++ sends b.
Proof.
  induction a as [|ev a IH]; [reflexivity|].
  destruct ev; simpl; rewrite IH; reflexivity.
Qed.

Lemma strictEquals_spec (a b : jsstring) : strictEquals a b = true <-> a = b.
Proof.
  revert b; induction a as [|x a IH]; intros [|y b]; simpl;
    try (split; [discriminate|discriminate]); [tauto|].
  rewrite andb_true_iff, Z.eqb_eq, IH.
  split; [intros [-> ->]; reflexivity | intros H; injection H; auto].
Qed.

Lemma quiet_ret {A} (a : A) : quiet (ret a).
Proof. intros w. split; reflexivity. Qed.

Lemma quiet_throw {A} (err : error) : quiet (@throw A err).
Proof. intros w. split; reflexivity. Qed.

Lemma quiet_bind {A B} (c : M A) (k : A -> M B) :
  quiet c -> (forall a, quiet (k a)) -> quiet (bind c k).
Proof.
  intros Hc Hk w. unfold bind. specialize (Hc w).
  destruct (c w) as [[a|err] w1]; simpl in *.
  - destruct Hc as [Hc1 Hc2], (Hk a w1) as [Hf Hs]. split; congruence.
  - exact Hc.
Qed.

Lemma quiet_tryCatch {A} (body : M A) (handler : error -> M A) :
  quiet body -> (forall err, quiet (handler err)) ->
  quiet (tryCatch body handler).
Proof.
  intros Hc Hk w. unfold tryCatch. specialize (Hc w).
  destruct (body w) as [[a|err] w1]; simpl in *.
  - exact Hc.
  - destruct Hc as [Hc1 Hc2], (Hk err w1) as [Hf Hs]. split; congruence.
Qed.

Lemma quiet_console (isError : bool) (label : String.string) :
  quiet (emit (EvConsole isError label)).
Proof.
  intros w. split; [reflexivity|]. simpl.
  rewrite sends_app, app_nil_r. reflexivity.
Qed.

Lemma quiet_someM {A} (p : A -> M bool) (l : list A) :
  (forall x, quiet (p x)) -> quiet (someM p l).
Proof.
  intros Hp. induction l as [|x l IH]; simpl.
  - apply quiet_ret.
  - apply quiet_bind; [apply Hp|]. intros [|]; [apply quiet_ret | exact IH].
Qed.

Lemma quiet_filterM {A} (p : A -> M bool) (l : list A) :
  (forall x, quiet (p x)) -> quiet (filterM p l).
Proof.
  intros Hp. induction l as [|x l IH]; simpl.
  - apply quiet_ret.
  - apply quiet_bind; [apply Hp|]. intros b.
    apply quiet_bind; [exact IH|]. intros rest. apply quiet_ret.
Qed.

Lemma quiet_mapM {A B} (f : A -> M B) (l : list A) :
  (forall x, quiet (f x)) -> quiet (mapM f l).
Proof.
  intros Hf. induction l as [|x l IH]; simpl.
  - apply quiet_ret.
  - apply quiet_bind; [apply Hf|]. intros y.
    apply quiet_bind; [exact IH|]. intros ys. apply quiet_ret.
Qed.

Lemma total_ret {A} (a : A) : total (ret a).
Proof. intros w. exists a. reflexivity. Qed.

Lemma total_bind {A B} (c : M A) (k : A -> M B) :
  total c -> (forall a, total (k a)) -> total (bind c k).
Proof.
  intros Hc Hk w. unfold bind. destruct (Hc w) as [a Ha].
  destruct (c w) as [[a'|err] w1]; simpl in *; [|discriminate].
  apply Hk.
Qed.

Lemma total_tryCatch {A} (body : M A) (handler : error -> M A) :
  (forall err, total (handler err)) -> total (tryCatch body handler).
Proof.
  intros Hk w. unfold tryCatch.
  destruct (body w) as [[a|err] w1]; simpl; [eauto | apply Hk].
Qed.

Lemma total_emit (ev : event) : total (emit ev).
Proof. intros w. exists tt. reflexivity. Qed.

Lemma total_someM {A} (p : A -> M bool) (l : list A) :
  (forall x, total (p x)) -> total (someM p l).
Proof.
  intros Hp. induction l as [|x l IH]; simpl.
  - apply total_ret.
  - apply total_bind; [apply Hp|]. intros [|]; [apply total_ret | exact IH].
Qed.

Lemma total_filterM {A} (p : A -> M bool) (l : list A) :
  (forall x, total (p x)) -> total (filterM p l).
Proof.
  intros Hp. induction l as [|x l IH]; simpl.
  - apply total_ret.
  - apply total_bind; [apply Hp|]. intros b.
    apply total_bind; [exact IH|]. intros rest. apply total_ret.
Qed.

(** ** Core functions *)

Section CoreFacts.

Variable toLowerCase : jsstring -> jsstring.
Variable toISOString : Z -> jsstring.
Variable parseDate : jsstring -> option Z.
Variable URL_href : jsstring -> option jsstring.
Variable JSON_stringify : list notification -> jsstring.
Variable JSON_parse : jsstring -> option (list notification).
Variable generateEmailHTML : list notification -> Z -> Z -> jsstring.
Variable E : env.

Local Abbreviation alreadySeen := (alreadySeen parseDate E).
Local Abbreviation diffNotifications := (diffNotifications parseDate E).
Local Abbreviation duplicateOf := (duplicateOf parseDate).
Local Abbreviation isFresh := (isFresh parseDate).
Local Abbreviation recent := (recent parseDate).
Local Abbreviation loadPreviousNotifications := (loadPreviousNotifications JSON_parse E).
Local Abbreviation saveNotifications := (saveNotifications JSON_stringify E).
Local Abbreviation sendEmailNotification := (sendEmailNotification generateEmailHTML E).
Local Abbreviation fetchNotifications :=
  (fetchNotifications toLowerCase toISOString URL_href E).
Local Abbreviation buildNotification :=
  (buildNotification toLowerCase toISOString URL_href E).
Local Abbreviation monitorNotifications :=
  (monitorNotifications toLowerCase toISOString parseDate URL_href
                        JSON_stringify JSON_parse generateEmailHTML E).

(** *** The diff *)

Lemma duplicateOf_spec (now : Z) (current prev : notification) :
  duplicateOf now current prev = true <->
  id prev = id current \/ (text prev = text current /\ recent now prev).
Proof.
  unfold duplicateOf, recent, Date_gt.
  rewrite orb_true_iff, andb_true_iff, !strictEquals_spec.
  destruct (parseDate (timestamp prev)) as [t|].
  - rewrite Z.ltb_lt. split.
    + intros [H|[H1 H2]]; [left; exact H | right; eauto].
    + intros [H|[H1 [t' [Ht Hlt]]]]; [left; exact H|].
      injection Ht as <-. right. split; assumption.
  - split.
    + intros [H|[_ H]]; [left; exact H | discriminate].
    + intros [H|[_ [t [Ht _]]]]; [left; exact H | discriminate].
Qed.

Lemma fresh_spec (now : Z) (history : list notification)
      (current : notification) :
  negb (existsb (duplicateOf now current) history) = true <->
  isFresh now history current.
Proof using Type.
  rewrite negb_true_iff. unfold isFresh. split.
  - intros Hno prev Hin.
    assert (Hd : duplicateOf now current prev = false).
    { destruct (duplicateOf now current prev) eqn:Hd; [|reflexivity].
      rewrite <- Hno. symmetry. apply existsb_exists. eauto. }
    split; intros H; apply not_true_iff_false in Hd; apply Hd;
      apply duplicateOf_spec; [left; exact H | right; exact H].
  - intros Hfresh. apply not_true_iff_false. intros Hex.
    apply existsb_exists in Hex. destruct Hex as [prev [Hin Hd]].
    apply duplicateOf_spec in Hd. destruct (Hfresh prev Hin) as [Hid Htx].
    destruct Hd as [Hd|Hd]; [exact (Hid Hd) | exact (Htx Hd)].
Qed.

Section StillClock.

Variable now : Z.
Hypothesis clock_still : forall k, clock E k = now.

Lemma alreadySeen_still (current prev : notification) (w : world) :
  exists w', alreadySeen current prev w
             = (Ok (duplicateOf now current prev), w')
             /\ files w' = files w /\ trace w' = trace w.
Proof.
  unfold alreadySeen, duplicateOf.
  destruct (strictEquals (id prev) (id current)).
  - exists w. repeat split.
  - destruct (strictEquals (text prev) (text current)).
    + unfold bind, Date_now, ret. rewrite clock_still.
      eexists. repeat split.
    + exists w. repeat split.
Qed.

Lemma someM_alreadySeen_still (current : notification)
      (history : list notification) :
  forall w, exists w',
    someM (alreadySeen current) history w
    = (Ok (existsb (duplicateOf now current) history), w')
    /\ files w' = files w /\ trace w' = trace w.
Proof.
  induction history as [|prev history IH]; intros w; cbn [someM existsb].
  - exists w. repeat split.
  - unfold bind at 1.
    destruct (alreadySeen_still current prev w) as [w1 [He [Hf Ht]]].
    rewrite He. destruct (duplicateOf now current prev); cbn [orb].
    + exists w1. repeat split; assumption.
    + destruct (IH w1) as [w2 [He2 [Hf2 Ht2]]].
      exists w2. repeat split; congruence.
Qed.

Lemma diffNotifications_still (current history : list notification) :
  forall w, exists w',
    diffNotifications current history w
    = (Ok (List.filter
             (fun c => negb (existsb (duplicateOf now c) history))
             current), w')
    /\ files w' = files w /\ trace w' = trace w.
Proof.
  unfold diffNotifications.
  induction current as [|c current IH]; intros w;
    cbn [filterM List.filter].
  - exists w. repeat split.
  - unfold bind at 1. unfold bind at 1.
    destruct (someM_alreadySeen_still c history w) as [w1 [He [Hf Ht]]].
    rewrite He. unfold ret at 1. unfold bind at 1.
    destruct (IH w1) as [w2 [He2 [Hf2 Ht2]]].
    rewrite He2. exists w2. unfold ret.
    repeat split; congruence.
Qed.

(** C2 (as the code has it): when the clock reads [now] throughout the
    diff, the output is the current batch, in its order, restricted to the
    notices for which no history entry has an equal id and none has an
    equal text with a timestamp later than [now] minus 24 hours.  With an
    empty history every current notice is output; a current notice whose
    text appears in history only with a timestamp 25 hours old is output
    provided no history entry has its id. *)
Theorem diffNotifications_keeps_fresh
        (current history : list notification) (w : world) :
  exists (keep : notification -> bool) (w' : world),
    diffNotifications current history w = (Ok (List.filter keep current), w')
    /\ (forall c, keep c = true <-> isFresh now history c)
    /\ (history = [] -> List.filter keep current = current)
    /\ (forall c,
          In c current ->
          (forall prev, In prev history -> id prev <> id c) ->
          (forall prev, In prev history -> text prev = text c ->
             parseDate (timestamp prev) = Some (now - 25 * 60 * 60 * 1000)) ->
          In c (List.filter keep current)).
Proof.
  exists (fun c => negb (existsb (duplicateOf now c) history)).
  destruct (diffNotifications_still current history w) as [w' [He _]].
  exists w'. split; [exact He|].
  split; [intros c; apply fresh_spec|]. split.
  - intros ->. simpl. clear He. induction current as [|c l IH];
      [reflexivity | simpl; f_equal; exact IH].
  - intros c Hin Hid Hold. apply filter_In. split; [exact Hin|].
    apply fresh_spec. intros prev Hp. split; [apply Hid; exact Hp|].
    intros [Htx [t [Ht Hlt]]]. rewrite (Hold prev Hp Htx) in Ht.
    injection Ht as <-. lia.
Qed.

End StillClock.

Lemma diffNotifications_nil (current : list notification) (w : world) :
  diffNotifications current [] w = (Ok current, w).
Proof.
  unfold diffNotifications. revert w.
  induction current as [|c current IH]; intros w; cbn [filterM someM].
  - reflexivity.
  - unfold bind at 1. unfold bind at 1. unfold ret at 1. unfold ret at 1.
    unfold bind at 1. rewrite IH. reflexivity.
Qed.

Lemma quiet_Date_now : quiet (Date_now E).
Proof. intros w. split; reflexivity. Qed.

Lemma total_Date_now : total (Date_now E).
Proof. intros w. eexists. reflexivity. Qed.

Lemma quiet_alreadySeen (current prev : notification) :
  quiet (alreadySeen current prev).
Proof.
  unfold alreadySeen.
  destruct (strictEquals (id prev) (id current)); [apply quiet_ret|].
  destruct (strictEquals (text prev) (text current)); [|apply quiet_ret].
  apply quiet_bind; [apply quiet_Date_now | intros; apply quiet_ret].
Qed.

Lemma total_alreadySeen (current prev : notification) :
  total (alreadySeen current prev).
Proof.
  unfold alreadySeen.
  destruct (strictEquals (id prev) (id current)); [apply total_ret|].
  destruct (strictEquals (text prev) (text current)); [|apply total_ret].
  apply total_bind; [apply total_Date_now | intros; apply total_ret].
Qed.

Lemma quiet_diffNotifications (current history : list notification) :
  quiet (diffNotifications current history).
Proof.
  apply quiet_filterM. intros c. apply quiet_bind.
  - apply quiet_someM. intros prev. apply quiet_alreadySeen.
  - intros. apply quiet_ret.
Qed.

Lemma total_diffNotifications (current history : list notification) :
  total (diffNotifications current history).
Proof.
  apply total_filterM. intros c. apply total_bind.
  - apply total_someM. intros prev. apply total_alreadySeen.
  - intros. apply total_ret.
Qed.

(** *** The history store *)

Lemma quiet_readFile (file : jsstring) : quiet (readFile E file).
Proof.
  intros w. unfold readFile.
  destruct (files w !! file); [destruct (readFile_error E)|];
    split; reflexivity.
Qed.

Lemma quiet_loadPreviousNotifications : quiet loadPreviousNotifications.
Proof.
  apply quiet_tryCatch.
  - apply quiet_bind; [apply quiet_readFile|]. intros data.
    destruct (JSON_parse data); [apply quiet_ret | apply quiet_throw].
  - intros err. apply quiet_bind; [|intros; apply quiet_ret].
    destruct (code err) as [c|]; [|apply quiet_console].
    destruct (strictEquals c (str "ENOENT"));
      [apply quiet_ret | apply quiet_console].
Qed.

Lemma total_loadPreviousNotifications : total loadPreviousNotifications.
Proof.
  apply total_tryCatch. intros err.
  apply total_bind; [|intros; apply total_ret].
  destruct (code err) as [c|]; [|apply total_emit].
  destruct (strictEquals c (str "ENOENT"));
    [apply total_ret | apply total_emit].
Qed.

(** C9: whatever makes the load fail (no file, a file that cannot be
    read, a file that is not JSON), the function returns the empty list
    without throwing and without touching the files; the diff against
    that empty history returns the whole current batch. *)
Theorem loadPreviousNotifications_failure_is_empty (w : world) :
  (files w !! CONFIG.storageFile = None \/
   (exists err, readFile_error E = Some err) \/
   (exists data, files w !! CONFIG.storageFile = Some data /\
                 JSON_parse data = None)) ->
  (exists w', loadPreviousNotifications w = (Ok [], w') /\
              files w' = files w /\
              (trace w' = trace w \/
               trace w' = trace w ++
                 [EvConsole true "Error loading previous notifications:"])) /\
  (forall current w2,
      diffNotifications current [] w2 = (Ok current, w2)).
Proof using Type.
  intros Hfail. split; [|intros; apply diffNotifications_nil].
  assert (Hcatch : forall err w1,
    exists w',
      ((match code err with
        | Some c =>
            if strictEquals c (str "ENOENT") then ret tt
            else console_error "Error loading previous notifications:"
        | None => console_error "Error loading previous notifications:"
        end ;; ret [])%io : M (list notification)) w1 = (Ok [], w') /\
      files w' = files w1 /\
      (trace w' = trace w1 \/
       trace w' = trace w1 ++
         [EvConsole true "Error loading previous notifications:"])).
  { intros err w1. destruct (code err) as [c|];
      [destruct (strictEquals c (str "ENOENT"))|];
      eexists; (split; [reflexivity|]); (split; [reflexivity|]);
        first [left; reflexivity | right; reflexivity]. }
  unfold loadPreviousNotifications, tryCatch, bind at 1, readFile.
  destruct (files w !! CONFIG.storageFile) as [data|] eqn:Hfile.
  - destruct (readFile_error E) as [err|] eqn:Hread.
    + apply Hcatch.
    + destruct Hfail as [H|[[err H]|[data' [Hd Hp]]]];
        [discriminate | discriminate |].
      injection Hd as <-. rewrite Hp. apply Hcatch.
  - apply Hcatch.
Qed.

Lemma saveNotifications_cases (notifications : list notification)
      (w : world) :
  let data := JSON_stringify notifications in
  let backupFile := CONFIG.storageFile ++ str ".backup" in
  let failed := EvConsole true "Error saving notifications:" in
  exists w',
    saveNotifications notifications w = (Ok tt, w') /\
    ticks w' = ticks w /\
    match writeFile_error E backupFile, writeFile_error E CONFIG.storageFile
    with
    | Some _, _ =>
        files w' = files w /\
        trace w' = trace w ++ [EvWriteFile backupFile data false; failed]
    | None, Some _ =>
        files w' = <[backupFile := data]> (files w) /\
        trace w' = trace w ++ [EvWriteFile backupFile data true;
                               EvWriteFile CONFIG.storageFile data false;
                               failed]
    | None, None =>
        files w' = <[CONFIG.storageFile := data]>
                     (<[backupFile := data]> (files w)) /\
        trace w' = trace w ++ [EvWriteFile backupFile data true;
                               EvWriteFile CONFIG.storageFile data true]
    end.
Proof.
  intros data backupFile failed.
  unfold saveNotifications, tryCatch, bind, writeFile, console_error, emit.
  fold backupFile. fold data.
  destruct (writeFile_error E backupFile) as [e1|]; cbn [files ticks trace].
  - eexists. split; [reflexivity|]. split; [reflexivity|].
    split; [reflexivity|]. rewrite <- app_assoc. reflexivity.
  - destruct (writeFile_error E CONFIG.storageFile) as [e2|];
      cbn [files ticks trace];
      eexists; (split; [reflexivity|]); (split; [reflexivity|]);
      (split; [reflexivity|]); rewrite <- ?app_assoc; reflexivity.
Qed.

(** C7 (as the code has it): a save writes the backup copy first and the
    history file second, in one [try]: when the backup write fails the
    history file is not attempted; when the backup write succeeds the
    history file is attempted, and its failure leaves the new backup in
    place; no failure leaves the function. *)
Theorem saveNotifications_backup_first (notifications : list notification)
        (w : world) :
  let data := JSON_stringify notifications in
  let backupFile := CONFIG.storageFile ++ str ".backup" in
  let failed := EvConsole true "Error saving notifications:" in
  exists w',
    saveNotifications notifications w = (Ok tt, w') /\
    match writeFile_error E backupFile, writeFile_error E CONFIG.storageFile
    with
    | Some _, _ =>
        files w' = files w /\
        trace w' = trace w ++ [EvWriteFile backupFile data false; failed]
    | None, Some _ =>
        files w' = <[backupFile := data]> (files w) /\
        trace w' = trace w ++ [EvWriteFile backupFile data true;
                               EvWriteFile CONFIG.storageFile data false;
                               failed]
    | None, None =>
        files w' = <[CONFIG.storageFile := data]>
                     (<[backupFile := data]> (files w)) /\
        trace w' = trace w ++ [EvWriteFile backupFile data true;
                               EvWriteFile CONFIG.storageFile data true]
    end.
Proof.
  intros data backupFile failed.
  destruct (saveNotifications_cases notifications w) as [w' [He [_ H]]].
  exists w'. split; [exact He | exact H].
Qed.

(** *** The mailer *)

Lemma sendEmailNotification_cases (newNotifications : list notification)
      (w : world) :
  exists email w',
    sendEmailNotification newNotifications w
    = (Ok (match resend_send E with None => true | Some _ => false end), w')
    /\ subject email = emailSubject newNotifications
    /\ files w' = files w
    /\ sends (trace w') = sends (trace w) ++ [email].
Proof.
  exists {| subject := emailSubject newNotifications;
            html := generateEmailHTML newNotifications
                      (clock E (ticks w)) (clock E (S (ticks w))) |}.
  unfold sendEmailNotification, tryCatch, bind, resend_emails_send,
    console_log, console_error, emit, Date_now, ret.
  cbn [files ticks trace subject].
  destruct (resend_send E) as [err|]; [destruct (response err)|];
    eexists; (split; [reflexivity|]); cbn [files ticks trace subject];
    (split; [reflexivity|]); (split; [reflexivity|]);
    rewrite !sends_app; cbn [sends]; rewrite !app_nil_r; reflexivity.
Qed.

(** C8: the subject of the mail handed to the mailer is "BAOU: ", the
    number of new notices, " New Notification", an "s" unless the number
    is 1, and " (URGENT)" exactly when some new notice is urgent. *)
Theorem sendEmailNotification_subject (newNotifications : list notification)
        (w : world) :
  newNotifications <> [] ->
  exists email plural urgent,
    sends (trace (snd (sendEmailNotification newNotifications w)))
    = sends (trace w) ++ [email] /\
    subject email
    = str "BAOU: " ++ numberToString (length newNotifications)
      ++ str " New Notification" ++ plural ++ urgent /\
    (length newNotifications <> 1%nat -> plural = str "s") /\
    (length newNotifications = 1%nat -> plural = []) /\
    ((exists n, In n newNotifications /\ isUrgent n = true) ->
     urgent = str " (URGENT)") /\
    (~ (exists n, In n newNotifications /\ isUrgent n = true) ->
     urgent = []).
Proof.
  intros _.
  destruct (sendEmailNotification_cases newNotifications w)
    as [email [w' [He [Hs [_ Ht]]]]].
  exists email,
    (if negb (Nat.eqb (length newNotifications) 1) then str "s" else []),
    (if existsb isUrgent newNotifications then str " (URGENT)" else []).
  rewrite He. split; [exact Ht|]. split; [exact Hs|].
  destruct (Nat.eqb_spec (length newNotifications) 1) as [H1|H1]; cbn [negb].
  - split; [intros H; destruct (H H1)|]. split; [reflexivity|].
    destruct (existsb isUrgent newNotifications) eqn:Hu.
    + split; [reflexivity|]. intros Hno. destruct Hno.
      apply existsb_exists in Hu. exact Hu.
    + split; [|reflexivity]. intros Hex. apply existsb_exists in Hex.
      congruence.
  - split; [reflexivity|]. split; [intros H; destruct (H1 H)|].
    destruct (existsb isUrgent newNotifications) eqn:Hu.
    + split; [reflexivity|]. intros Hno. destruct Hno.
      apply existsb_exists in Hu. exact Hu.
    + split; [|reflexivity]. intros Hex. apply existsb_exists in Hex.
      congruence.
Qed.

(** *** The cycle *)

Lemma bind_Ok {A B} (c : M A) (k : A -> M B) (w w1 : world) (a : A) :
  c w = (Ok a, w1) -> bind c k w = k a w1.
Proof. intros H. unfold bind. rewrite H. reflexivity. Qed.

Lemma run_quiet_total {A} (c : M A) (w : world) :
  quiet c -> total c ->
  exists a w', c w = (Ok a, w') /\ files w' = files w /\
               sends (trace w') = sends (trace w).
Proof.
  intros Hq Ht. destruct (Hq w) as [Hf Hs], (Ht w) as [a Ha].
  destruct (c w) as [r w']. simpl in *. subst r. eauto.
Qed.

Lemma quiet_buildNotification (element : li) :
  quiet (buildNotification element).
Proof.
  unfold buildNotification.
  apply quiet_bind; [apply quiet_Date_now|]. intros t1.
  apply quiet_bind.
  - destruct (li_href element) as [[|c href]|]; try apply quiet_ret.
    destruct (URL_href (c :: href)); [apply quiet_ret | apply quiet_throw].
  - intros link. apply quiet_bind; [apply quiet_Date_now|].
    intros t2. apply quiet_ret.
Qed.

Lemma quiet_fetchNotifications : quiet fetchNotifications.
Proof.
  apply quiet_tryCatch.
  - destruct (axios_get E) as [items|err]; [|apply quiet_throw].
    apply quiet_bind; [|intros; apply quiet_ret].
    apply quiet_mapM. apply quiet_buildNotification.
  - intros err. apply quiet_bind; [apply quiet_console|]. intros _.
    apply quiet_bind; [|intros; apply quiet_ret].
    destruct (response err); [apply quiet_console | apply quiet_ret].
Qed.

Lemma total_fetchNotifications : total fetchNotifications.
Proof.
  apply total_tryCatch. intros err.
  apply total_bind; [apply total_emit|]. intros _.
  apply total_bind; [|intros; apply total_ret].
  destruct (response err); [apply total_emit | apply total_ret].
Qed.

(** C6: a cycle never throws; it rewrites the history file only after a
    non-empty diff and an accepted mail, and then with the new notices, in
    diff order, before the prior history; after an empty diff it sends no
    mail and leaves the files as they were, and after a refused mail it
    leaves the files as they were. *)
Theorem monitorNotifications_history (w : world) :
  exists w0 previous w1 fetched w2 w',
    (Date_now E ;; console_log "Checking for new notifications...")%io w
    = (Ok tt, w0) /\
    loadPreviousNotifications w0 = (Ok previous, w1) /\
    fetchNotifications w1 = (Ok fetched, w2) /\
    monitorNotifications w = (Ok tt, w') /\
    match fetched with
    | None => files w' = files w /\ sends (trace w') = sends (trace w)
    | Some current =>
        exists newNotifications w3,
          diffNotifications current previous w2 = (Ok newNotifications, w3) /\
          match newNotifications with
          | [] => files w' = files w /\ sends (trace w') = sends (trace w)
          | _ :: _ =>
              (exists email,
                  sends (trace w') = sends (trace w) ++ [email] /\
                  subject email = emailSubject newNotifications) /\
              let data := JSON_stringify (newNotifications ++ previous) in
              let backupFile := CONFIG.storageFile ++ str ".backup" in
              match resend_send E with
              | Some _ => files w' = files w
              | None =>
                  match writeFile_error E backupFile,
                        writeFile_error E CONFIG.storageFile with
                  | None, None =>
                      files w' = <[CONFIG.storageFile := data]>
                                   (<[backupFile := data]> (files w))
                  | None, Some _ =>
                      files w' = <[backupFile := data]> (files w)
                  | Some _, _ => files w' = files w
                  end
              end
          end
    end.
Proof.
  pose (w0 := {| files := files w; ticks := S (ticks w);
                 trace := trace w ++
                   [EvConsole false "Checking for new notifications..."] |}).
  assert (H0 : (Date_now E ;;
                console_log "Checking for new notifications...")%io w
               = (Ok tt, w0)) by reflexivity.
  assert (Hf0 : files w0 = files w) by reflexivity.
  assert (Hs0 : sends (trace w0) = sends (trace w)).
  { unfold w0. cbn [trace]. rewrite sends_app. apply app_nil_r. }
  destruct (run_quiet_total loadPreviousNotifications w0
              quiet_loadPreviousNotifications total_loadPreviousNotifications)
    as [previous [w1 [H1 [Hf1 Hs1]]]].
  destruct (run_quiet_total fetchNotifications w1
              quiet_fetchNotifications total_fetchNotifications)
    as [fetched [w2 [H2 [Hf2 Hs2]]]].
  exists w0, previous, w1, fetched, w2.
  assert (Hrun : forall k : list notification -> option (list notification)
                            -> M unit,
             (Date_now E ;;
              console_log "Checking for new notifications..." ;;
              previousNotifications <- loadPreviousNotifications ;;
              fetched <- fetchNotifications ;;
              k previousNotifications fetched)%io w
             = k previous fetched w2).
  { intros k. unfold bind at 1. unfold Date_now at 1.
    unfold bind at 1. unfold console_log at 1, emit at 1.
    fold w0. rewrite (bind_Ok _ _ _ _ _ H1), (bind_Ok _ _ _ _ _ H2).
    reflexivity. }
  unfold monitorNotifications. rewrite Hrun. clear Hrun.
  destruct fetched as [current|].
  - destruct (run_quiet_total (diffNotifications current previous) w2
                (quiet_diffNotifications current previous)
                (total_diffNotifications current previous))
      as [newNotifications [w3 [H3 [Hf3 Hs3]]]].
    rewrite (bind_Ok _ _ _ _ _ H3).
    destruct newNotifications as [|n rest].
    + eexists. repeat (split; [first [eassumption | reflexivity]|]).
      exists [], w3. split; [exact H3|]. cbn [files trace].
      rewrite sends_app, app_nil_r. split; congruence.
    + change (0 <? length (n :: rest))%nat with true. cbv iota.
      pose (w4 := {| files := files w3; ticks := ticks w3;
                     trace := trace w3 ++
                       [EvConsole false "Found new notifications"] |}).
      rewrite (bind_Ok (console_log "Found new notifications") _ w3 w4 tt
                       eq_refl).
      destruct (sendEmailNotification_cases (n :: rest) w4)
        as [email [w5 [H5 [Hsub [Hf5 Hs5]]]]].
      rewrite (bind_Ok _ _ _ _ _ H5).
      assert (Hs4 : sends (trace w4) = sends (trace w)).
      { unfold w4. cbn [trace]. rewrite sends_app, app_nil_r. congruence. }
      assert (Hf4 : files w4 = files w).
      { unfold w4. cbn [files]. congruence. }
      destruct (resend_send E) as [err|].
      * exists w5. repeat (split; [first [eassumption | reflexivity]|]).
        exists (n :: rest), w3. split; [exact H3|]. split.
        -- exists email. split; [congruence | exact Hsub].
        -- cbv zeta. congruence.
      * destruct (saveNotifications_cases ((n :: rest) ++ previous) w5)
          as [w' [H6 [_ Hcases]]].
        exists w'. repeat (split; [first [eassumption | reflexivity]|]).
        exists (n :: rest), w3. split; [exact H3|]. cbv zeta in *.
        destruct (writeFile_error E (CONFIG.storageFile ++ str ".backup"));
          [|destruct (writeFile_error E CONFIG.storageFile)];
          destruct Hcases as [Hfw Htw]; (split; [|congruence]);
          exists email; (split; [|exact Hsub]);
          rewrite Htw, sends_app; cbn [sends]; rewrite app_nil_r;
          congruence.
  - eexists. repeat (split; [first [eassumption | reflexivity]|]).
    cbn [files trace]. rewrite sends_app, app_nil_r. split; congruence.
Qed.

End CoreFacts.

(** * The code run on the example page *)

(** The two scenarios of the specification, with the ASCII lowering. *)
Example final_exam_schedule :
  let n := Sample.scraped Sample.later in
  category n = EXAM /\ isUrgent n = false /\
  calculatePriority asciiLowerCase
    {| id := id n; text := text n; link := link n; isNew := false;
       isUrgent := isUrgent n; timestamp := timestamp n;
       category := category n |} = 0.
Proof. vm_compute. repeat split. Qed.

(** Two cycles 25 hours apart on the same page: the first mails the notice
    and stores it, the second finds its id in the history and mails
    nothing. *)
Example two_cycles :
  let w1 := Sample.cycle Sample.earlier Sample.start in
  let w2 := Sample.cycle Sample.later w1 in
  length (sends (trace w1)) = 1%nat /\
  files w1 !! CONFIG.storageFile
  = Some (Sample.JSON_stringify [Sample.scraped Sample.earlier]) /\
  sends (trace w2) = sends (trace w1) /\
  files w2 !! CONFIG.storageFile = files w1 !! CONFIG.storageFile.
Proof. intros w1 w2. repeat split; vm_compute; reflexivity. Qed.

Example urgent_assignment :
  let text := str "URGENT: last date for assignment submission is tomorrow" in
  detectUrgency asciiLowerCase text = true /\
  categorizeNotification asciiLowerCase text = ASSIGNMENT.
Proof. vm_compute. repeat split. Qed.

(** A keyword inside a longer word counts. *)
Example keyword_inside_word :
  detectUrgency asciiLowerCase (str "Overdue library books") = true /\
  detectUrgency asciiLowerCase (str "Library books") = false.
Proof. vm_compute. split; reflexivity. Qed.

(** The subject line for one quiet notice and for two, one of them urgent. *)
Example subject_lines :
  let n := Sample.scraped Sample.later in
  let u := {| id := id n; text := text n; link := link n; isNew := isNew n;
              isUrgent := true; timestamp := timestamp n;
              category := category n |} in
  emailSubject [n] = str "BAOU: 1 New Notification" /\
  emailSubject [n; u] = str "BAOU: 2 New Notifications (URGENT)".
Proof. vm_compute. split; reflexivity. Qed.

(** C1: the claim wants different ids for different timestamps; on the
    code, two scrapes of the example notice 25 hours apart carry the same
    id, spelled by the first nine bytes of the text alone. *)
Lemma generateNotificationId_same_on_two_runs :
  Sample.toISOString Sample.earlier <> Sample.toISOString Sample.later /\
  generateNotificationId Sample.notice (Sample.toISOString Sample.earlier)
  = generateNotificationId Sample.notice (Sample.toISOString Sample.later)
  /\ generateNotificationId Sample.notice
       (Sample.toISOString Sample.later) = str "RmluYWwgZXhh".
Proof.
  split; [|vm_compute; split; reflexivity].
  intros H. pose proof (proj2 (strictEquals_spec _ _) H) as H'.
  vm_compute in H'. discriminate H'.
Qed.

(** C2, refuted as stated: the current notice has the text of the only
    history entry, whose timestamp is 25 hours old, and is not output,
    because that entry also has its id. *)
Lemma diffNotifications_drops_expired_text :
  let prev := Sample.scraped Sample.earlier in
  let current := Sample.scraped Sample.later in
  let E := Sample.host Sample.later (fun _ => false) in
  text prev = text current /\
  Sample.parseDate (timestamp prev)
  = Some (Sample.later - 25 * 60 * 60 * 1000) /\
  fst (diffNotifications Sample.parseDate E [current] [prev] Sample.start)
  = Ok [].
Proof. vm_compute. repeat split. Qed.

Lemma diffNotifications_keeps_fresh_witness :
  let E := Sample.host Sample.later (fun _ => false) in
  (forall k, clock E k = Sample.later) /\
  exists keep w',
    diffNotifications Sample.parseDate E
      [Sample.scraped Sample.later] [] Sample.start
    = (Ok (List.filter keep [Sample.scraped Sample.later]), w').
Proof.
  intros E. split; [intros k; reflexivity|].
  destruct (diffNotifications_keeps_fresh
              Sample.parseDate E Sample.later (fun k => eq_refl)
              [Sample.scraped Sample.later] [] Sample.start)
    as [keep [w' [H _]]].
  exists keep, w'. exact H.
Defined.

Lemma calculatePriority_weights_witness :
  let n := Sample.scraped Sample.later in
  let n' := {| id := id n; text := text n; link := link n; isNew := isNew n;
               isUrgent := true; timestamp := timestamp n;
               category := category n |} in
  calculatePriority asciiLowerCase n <= calculatePriority asciiLowerCase n'.
Proof.
  intros n n'.
  apply (proj2 (proj2 (calculatePriority_weights asciiLowerCase n)) n');
    intros H; try reflexivity; vm_compute in H; discriminate.
Defined.

Lemma categorizeNotification_first_match_witness :
  (forall s, forallb is_ascii s = true -> asciiLowerCase s = asciiLowerCase s)
  /\ categorizeNotification asciiLowerCase
       (str "Final exam schedule announced") = EXAM.
Proof.
  split; [intros s _; reflexivity|].
  exact (proj2 (proj2 (categorizeNotification_first_match
                         asciiLowerCase (fun s _ => eq_refl)
                         Sample.notice))).
Defined.

Lemma important_implies_urgent_witness :
  (forall s, forallb is_ascii s = true -> asciiLowerCase s = asciiLowerCase s)
  /\ includes (asciiLowerCase (str "IMPORTANT notice")) (str "important")
     = true
  /\ detectUrgency asciiLowerCase (str "IMPORTANT notice") = true.
Proof.
  split; [intros s _; reflexivity|].
  assert (H : includes (asciiLowerCase (str "IMPORTANT notice"))
                       (str "important") = true) by reflexivity.
  split; [exact H|].
  exact (proj1 (important_implies_urgent asciiLowerCase (fun s _ => eq_refl))
               (str "IMPORTANT notice") H).
Defined.

(** C7, refuted as stated: the disk refuses the backup file only, and the
    history file, which it would have accepted, is never attempted. *)
Lemma saveNotifications_backup_refusal_skips_history :
  let backupFile := CONFIG.storageFile ++ str ".backup" in
  let E := Sample.host Sample.later
                        (fun file => strictEquals file backupFile) in
  let w' := snd (saveNotifications Sample.JSON_stringify E
                   [Sample.scraped Sample.later] Sample.start) in
  writeFile_error E CONFIG.storageFile = None /\
  attemptsWrite backupFile (trace w') = true /\
  attemptsWrite CONFIG.storageFile (trace w') = false /\
  files w' = files Sample.start.
Proof. vm_compute. repeat split. Qed.

Lemma sendEmailNotification_subject_witness :
  let E := Sample.host Sample.later (fun _ => false) in
  let notices := [Sample.scraped Sample.later] in
  notices <> [] /\
  exists email plural urgent,
    sends (trace (snd (sendEmailNotification Sample.generateEmailHTML E
                         notices Sample.start)))
    = sends (trace Sample.start) ++ [email] /\
    subject email
    = str "BAOU: " ++ numberToString (length notices)
      ++ str " New Notification" ++ plural ++ urgent /\
    plural = [] /\ urgent = [].
Proof.
  intros E notices.
  assert (Hne : notices <> []) by discriminate.
  split; [exact Hne|].
  destruct (sendEmailNotification_subject Sample.generateEmailHTML E
              notices Sample.start Hne)
    as [email [plural [urgent [Hs [Hsub [_ [Hp [_ Hu]]]]]]]].
  exists email, plural, urgent. split; [exact Hs|]. split; [exact Hsub|].
  split; [apply Hp; reflexivity|].
  apply Hu. intros [n [[<-|[]] Hn]]. vm_compute in Hn. discriminate.
Defined.

Lemma loadPreviousNotifications_failure_is_empty_witness :
  let E := Sample.host Sample.later (fun _ => false) in
  files Sample.start !! CONFIG.storageFile = None /\
  exists w', loadPreviousNotifications Sample.JSON_parse E Sample.start
             = (Ok [], w').
Proof.
  intros E.
  assert (H : files Sample.start !! CONFIG.storageFile = None)
    by reflexivity.
  split; [exact H|].
  destruct (proj1 (loadPreviousNotifications_failure_is_empty
                     Sample.parseDate Sample.JSON_parse E Sample.start
                     (or_introl H)))
    as [w' [Hl _]].
  exists w'. exact Hl.
Defined.

(** * Further properties of the code *)

(** ** Language tag *)

(** X1: [detectLanguage] answers "gujarati" exactly when some code unit of
    the text lies in U+0A80..U+0AFF and "english" otherwise, so a text put
    together from two parts is "english" only when both parts are. *)
Theorem detectLanguage_block (a b : jsstring) :
  (detectLanguage a = str "gujarati" <->
   exists c, In c a /\ 2688 <= c <= 2815) /\
  (detectLanguage a = str "english" <->
   forall c, In c a -> ~ (2688 <= c <= 2815)) /\
  (detectLanguage (a ++ b) = str "english" <->
   detectLanguage a = str "english" /\ detectLanguage b = str "english").
Proof.
  assert (Hb : forall c, inGujaratiBlock c = true <-> 2688 <= c <= 2815).
  { intros c. unfold inGujaratiBlock.
    rewrite andb_true_iff, !Z.leb_le. reflexivity. }
  assert (Hg : forall t, detectLanguage t = str "gujarati" <->
                         existsb inGujaratiBlock t = true).
  { intros t. unfold detectLanguage.
    destruct (existsb inGujaratiBlock t); split; intros H;
      try reflexivity; discriminate H. }
  assert (He : forall t, detectLanguage t = str "english" <->
                         existsb inGujaratiBlock t = false).
  { intros t. unfold detectLanguage.
    destruct (existsb inGujaratiBlock t); split; intros H;
      try reflexivity; discriminate H. }
  split; [|split].
  - rewrite Hg, existsb_exists. split; intros [c [Hin Hc]]; exists c;
      (split; [exact Hin | apply Hb; exact Hc]).
  - rewrite He. split.
    + intros Hno c Hin Hc. apply Hb in Hc.
      assert (Hex : existsb inGujaratiBlock a = true)
        by (apply existsb_exists; eauto).
      congruence.
    + intros Hall. apply not_true_iff_false. intros Hex.
      apply existsb_exists in Hex. destruct Hex as [c [Hin Hc]].
      apply (Hall c Hin). apply Hb. exact Hc.
  - rewrite !He, existsb_app, orb_false_iff. reflexivity.
Qed.

(** ** Start-up validation *)

(** X2: the process survives the validation loop exactly when both
    RESEND_API_KEY and EMAIL_TO are set to non-empty strings; otherwise it
    exits naming the first of the two, in that order, that is unset or
    empty. *)
Theorem validateEnvironment_first_missing (penv : gmap jsstring jsstring) :
  let missing := fun envVar : jsstring =>
                   penv !! envVar = None \/ penv !! envVar = Some [] in
  match validateEnvironment penv with
  | None => ~ missing (str "RESEND_API_KEY") /\ ~ missing (str "EMAIL_TO")
  | Some envVar =>
      (envVar = str "RESEND_API_KEY" /\ missing (str "RESEND_API_KEY")) \/
      (envVar = str "EMAIL_TO" /\ ~ missing (str "RESEND_API_KEY") /\
       missing (str "EMAIL_TO"))
  end.
Proof.
  intros missing.
  assert (Hm : forall v, envMissing penv v = true <-> missing v).
  { intros v. unfold envMissing, missing.
    destruct (penv !! v) as [[|c s]|]; split; intros H;
      try reflexivity; try discriminate H; auto;
      destruct H as [H|H]; discriminate H. }
  unfold validateEnvironment, requiredEnvVars. cbn [validateLoop].
  destruct (envMissing penv (str "RESEND_API_KEY")) eqn:H1.
  - left. split; [reflexivity | apply Hm; exact H1].
  - assert (Hn1 : ~ missing (str "RESEND_API_KEY")).
    { intros H. apply Hm in H. congruence. }
    destruct (envMissing penv (str "EMAIL_TO")) eqn:H2.
    + right. split; [reflexivity|]. split; [exact Hn1 | apply Hm; exact H2].
    + split; [exact Hn1|]. intros H. apply Hm in H. congruence.
Qed.

(** ** Fingerprinting *)

Lemma toBase64_length_bounded (n : nat) :
  forall bytes : list Z,
    (length bytes <= n)%nat ->
    length (toBase64 bytes) = (4 * ((length bytes + 2) / 3))%nat.
Proof.
  induction n as [|n IH]; intros bytes Hl.
  - destruct bytes; [reflexivity | simpl in Hl; lia].
  - destruct bytes as [|a [|b [|c rest]]]; try reflexivity.
    cbn [toBase64 length]. rewrite IH by (simpl in Hl; lia).
    replace (S (S (S (length rest))) + 2)%nat
      with (length rest + 2 + 1 * 3)%nat by lia.
    rewrite Nat.div_add by lia. lia.
Qed.

(** X3: an id is never empty and never longer than twelve characters; it
    has exactly twelve as soon as the text and the timestamp together
    encode to six bytes or more, as every ISO timestamp does. *)
Theorem generateNotificationId_length (text timestamp : jsstring) :
  (4 <= length (generateNotificationId text timestamp) <= 12)%nat /\
  (length (generateNotificationId text timestamp) = 12%nat <->
   (6 <= length (Buffer_from text) + length (Buffer_from timestamp))%nat).
Proof.
  rewrite generateNotificationId_prefix.
  rewrite (toBase64_length_bounded _ _ (Nat.le_refl _)).
  rewrite length_take, length_app. cbn [length].
  set (n := length (Buffer_from text)).
  set (m := length (Buffer_from timestamp)).
  pose proof (Nat.div_mod_eq (9 `min` (n + S m) + 2) 3) as Hdiv.
  pose proof (Nat.mod_upper_bound (9 `min` (n + S m) + 2) 3) as Hmod.
  lia.
Qed.

Lemma generateNotificationId_prefix_eq (text1 text2 t1 t2 : jsstring) :
  (9 <= length (Buffer_from text1))%nat ->
  firstn 9 (Buffer_from text1) = firstn 9 (Buffer_from text2) ->
  generateNotificationId text1 t1 = generateNotificationId text2 t2.
Proof.
  intros Hlen Hpre.
  assert (Hlen2 : (9 <= length (Buffer_from text2))%nat).
  { apply (f_equal (@length Z)) in Hpre. rewrite !length_take in Hpre. lia. }
  rewrite !generateNotificationId_prefix, !firstn_app.
  replace (9 - length (Buffer_from text1))%nat with 0%nat by lia.
  replace (9 - length (Buffer_from text2))%nat with 0%nat by lia.
  cbn [firstn]. rewrite !app_nil_r. f_equal. exact Hpre.
Qed.

(** X4: two notices whose texts encode to the same first nine bytes get
    the same id, whatever the rest of their texts and their timestamps. *)
Theorem generateNotificationId_shared_prefix (text1 text2 t1 t2 : jsstring) :
  (9 <= length (Buffer_from text1))%nat ->
  firstn 9 (Buffer_from text1) = firstn 9 (Buffer_from text2) ->
  generateNotificationId text1 t1 = generateNotificationId text2 t2.
Proof. apply generateNotificationId_prefix_eq. Qed.

(** ** Loops over the world *)

Lemma someM_true {A} (p : A -> M bool) (l : list A) (x : A) :
  (forall y, total (p y)) ->
  In x l ->
  (forall w, fst (p x w) = Ok true) ->
  forall w, fst (someM p l w) = Ok true.
Proof.
  intros Ht Hin Hx. induction l as [|y l IH]; [destruct Hin|].
  intros w. cbn [someM]. unfold bind.
  destruct (Ht y w) as [b Hb]. pose proof (Hx w) as Hxw.
  destruct (p y w) as [r w1] eqn:Hp. cbn [fst] in Hb. subst r.
  destruct b; [reflexivity|].
  destruct Hin as [->|Hin].
  - rewrite Hp in Hxw. discriminate Hxw.
  - apply IH. exact Hin.
Qed.

Lemma someM_false {A} (p : A -> M bool) (l : list A) :
  (forall y, In y l -> forall w, fst (p y w) = Ok false) ->
  forall w, fst (someM p l w) = Ok false.
Proof.
  induction l as [|y l IH]; intros Hall w; [reflexivity|].
  cbn [someM]. unfold bind.
  pose proof (Hall y (or_introl eq_refl) w) as Hy.
  destruct (p y w) as [r w1]. cbn [fst] in Hy. subst r.
  apply IH. intros z Hz. apply Hall. right. exact Hz.
Qed.

Lemma filterM_out {A} (p : A -> M bool) (l : list A) :
  (forall x, total (p x)) ->
  forall w, exists out w',
    filterM p l w = (Ok out, w') /\
    sublist out l /\
    (forall c, (forall w, fst (p c w) = Ok false) -> ~ In c out) /\
    (forall c, In c l -> (forall w, fst (p c w) = Ok true) -> In c out).
Proof.
  intros Ht. induction l as [|x l IH]; intros w.
  - exists [], w. repeat split; [constructor | intros c _ [] | intros c []].
  - cbn [filterM]. unfold bind at 1.
    destruct (Ht x w) as [b Hb].
    destruct (p x w) as [r w1] eqn:Hp. cbn [fst] in Hb. subst r.
    destruct (IH w1) as [out [w' [He [Hsub [Hdrop Hkeep]]]]].
    unfold bind. rewrite He. unfold ret.
    exists (if b then x :: out else out), w'.
    split; [reflexivity|]. split; [|split].
    + destruct b; [apply sublist_skip | apply sublist_cons]; exact Hsub.
    + intros c Hc Hin. destruct b.
      * destruct Hin as [<-|Hin]; [|exact (Hdrop c Hc Hin)].
        specialize (Hc w). rewrite Hp in Hc. discriminate Hc.
      * exact (Hdrop c Hc Hin).
    + intros c [<-|Hin] Hc.
      * specialize (Hc w). rewrite Hp in Hc. injection Hc as ->. left.
        reflexivity.
      * destruct b; [right|]; apply Hkeep; assumption.
Qed.

(** ** The diff under any clock *)

Section DiffFacts.

Variable parseDate : jsstring -> option Z.
Variable E : env.

Local Abbreviation alreadySeen := (alreadySeen parseDate E).
Local Abbreviation diffNotifications := (diffNotifications parseDate E).

(** The callback of the [filter]. *)
Local Abbreviation isNewNotice history :=
  (fun current =>
     bind (someM (alreadySeen current) history)
          (fun seen => ret (negb seen))).

Lemma total_isNewNotice (history : list notification) (c : notification) :
  total (isNewNotice history c).
Proof.
  apply total_bind; [|intros; apply total_ret].
  apply total_someM. intros prev. apply total_alreadySeen.
Qed.

Lemma isNewNotice_same_id (history : list notification)
      (c prev : notification) :
  In prev history -> id prev = id c ->
  forall w, fst (isNewNotice history c w) = Ok false.
Proof.
  intros Hin Hid w. unfold bind.
  assert (H : fst (someM (alreadySeen c) history w) = Ok true).
  { apply (someM_true _ _ prev); [apply total_alreadySeen | exact Hin |].
    intros w0. unfold alreadySeen.
    rewrite (proj2 (strictEquals_spec _ _) Hid). reflexivity. }
  destruct (someM (alreadySeen c) history w) as [r w1].
  cbn [fst] in H. subst r. reflexivity.
Qed.

Lemma isNewNotice_unrelated (history : list notification) (c : notification) :
  (forall prev, In prev history -> id prev <> id c /\ text prev <> text c) ->
  forall w, fst (isNewNotice history c w) = Ok true.
Proof.
  intros Hall w. unfold bind.
  assert (H : fst (someM (alreadySeen c) history w) = Ok false).
  { apply someM_false. intros prev Hin w0. unfold alreadySeen.
    destruct (Hall prev Hin) as [Hid Htx].
    destruct (strictEquals (id prev) (id c)) eqn:H1;
      [apply strictEquals_spec in H1; destruct (Hid H1)|].
    destruct (strictEquals (text prev) (text c)) eqn:H2;
      [apply strictEquals_spec in H2; destruct (Htx H2)|].
    reflexivity. }
  destruct (someM (alreadySeen c) history w) as [r w1].
  cbn [fst] in H. subst r. reflexivity.
Qed.

(** X5: whatever the clock does during the diff, the diff never throws,
    its output is the current batch with some notices removed and the
    order kept, a current notice whose id some history entry has is always
    removed, and a current notice that shares neither id nor text with any
    history entry is always kept. *)
Theorem diffNotifications_any_clock
        (current history : list notification) (w : world) :
  exists out w',
    diffNotifications current history w = (Ok out, w') /\
    sublist out current /\
    (forall c prev, In prev history -> id prev = id c -> ~ In c out) /\
    (forall c, In c current ->
               (forall prev, In prev history ->
                             id prev <> id c /\ text prev <> text c) ->
               In c out).
Proof.
  destruct (filterM_out (isNewNotice history) current
                        (total_isNewNotice history) w)
    as [out [w' [He [Hsub [Hdrop Hkeep]]]]].
  exists out, w'. split; [exact He|]. split; [exact Hsub|]. split.
  - intros c prev Hin Hid. apply Hdrop.
    apply (isNewNotice_same_id history c prev Hin Hid).
  - intros c Hin Hall. apply Hkeep; [exact Hin|].
    apply isNewNotice_unrelated. exact Hall.
Qed.

(** X6: with ids made by [generateNotificationId], a current notice whose
    text encodes to the same first nine bytes as the text of some history
    entry is never output as new, however different the two texts are
    after those bytes and however old the entry is. *)
Theorem diffNotifications_suppresses_shared_prefix
        (current history : list notification) (w : world)
        (c prev : notification) (tc tp : jsstring) :
  In c current -> In prev history ->
  id c = generateNotificationId (text c) tc ->
  id prev = generateNotificationId (text prev) tp ->
  (9 <= length (Buffer_from (text c)))%nat ->
  firstn 9 (Buffer_from (text c)) = firstn 9 (Buffer_from (text prev)) ->
  exists out w',
    diffNotifications current history w = (Ok out, w') /\ ~ In c out.
Proof.
  intros Hc Hp Hidc Hidp Hlen Hpre.
  destruct (filterM_out (isNewNotice history) current
                        (total_isNewNotice history) w)
    as [out [w' [He [_ [Hdrop _]]]]].
  exists out, w'. split; [exact He|]. apply Hdrop.
  apply (isNewNotice_same_id history c prev Hp).
  rewrite Hidc, Hidp. symmetry.
  apply generateNotificationId_prefix_eq; assumption.
Qed.

End DiffFacts.

(** ** The scrape *)

Section FetchFacts.

Variable toLowerCase : jsstring -> jsstring.
Variable toISOString : Z -> jsstring.
Variable URL_href : jsstring -> option jsstring.
Variable E : env.

Local Abbreviation buildNotification :=
  (buildNotification toLowerCase toISOString URL_href E).
Local Abbreviation fetchNotifications :=
  (fetchNotifications toLowerCase toISOString URL_href E).
Local Abbreviation scrapeOne := (scrapeOne toLowerCase toISOString URL_href).
Local Abbreviation resolves := (resolves URL_href).

Lemma buildNotification_resolves (element : li) (w : world) :
  resolves element = true ->
  buildNotification element w
  = (Ok (scrapeOne (clock E (ticks w)) (clock E (S (ticks w))) element),
     {| files := files w; ticks := S (S (ticks w)); trace := trace w |}).
Proof.
  unfold resolves, buildNotification, scrapeOne, linkOf, bind, Date_now, ret.
  cbn [files ticks trace].
  destruct (li_href element) as [[|c href]|]; try reflexivity.
  destruct (URL_href (c :: href)); [reflexivity | discriminate].
Qed.

Lemma buildNotification_throws (element : li) (w : world) :
  resolves element = false ->
  buildNotification element w
  = (Throw TypeError,
     {| files := files w; ticks := S (ticks w); trace := trace w |}).
Proof.
  unfold resolves, buildNotification, bind, Date_now, ret, throw.
  cbn [files ticks trace].
  destruct (li_href element) as [[|c href]|]; try discriminate.
  destruct (URL_href (c :: href)); [discriminate | reflexivity].
Qed.

Lemma mapM_buildNotification_resolves (items : list li) :
  forallb resolves items = true ->
  forall w, exists notifications w',
    mapM buildNotification items w = (Ok notifications, w') /\
    Forall2 (fun element n =>
               exists k, n = scrapeOne (clock E k) (clock E (S k)) element)
            items notifications /\
    files w' = files w /\ trace w' = trace w.
Proof.
  induction items as [|element items IH]; intros Hall w.
  - exists [], w. repeat split. constructor.
  - cbn [forallb] in Hall. apply andb_true_iff in Hall.
    destruct Hall as [Hel Hrest]. cbn [mapM]. unfold bind at 1.
    rewrite (buildNotification_resolves element w Hel).
    destruct (IH Hrest {| files := files w; ticks := S (S (ticks w));
                          trace := trace w |})
      as [notifications [w' [He [Hf2 [Hf Ht]]]]].
    unfold bind. rewrite He. unfold ret.
    eexists. exists w'. split; [reflexivity|].
    split; [|split; assumption].
    constructor; [exists (ticks w); reflexivity | exact Hf2].
Qed.

Lemma mapM_buildNotification_throws (items : list li) :
  forallb resolves items = false ->
  forall w, exists w',
    mapM buildNotification items w = (Throw TypeError, w') /\
    files w' = files w /\ trace w' = trace w.
Proof.
  induction items as [|element items IH]; intros Hall w; [discriminate|].
  cbn [forallb] in Hall. cbn [mapM]. unfold bind at 1.
  destruct (resolves element) eqn:Hel.
  - rewrite (buildNotification_resolves element w Hel).
    cbn [andb] in Hall.
    destruct (IH Hall {| files := files w; ticks := S (S (ticks w));
                         trace := trace w |})
      as [w' [He [Hf Ht]]].
    unfold bind. rewrite He. exists w'. repeat split; assumption.
  - rewrite (buildNotification_throws element w Hel).
    eexists. repeat split.
Qed.

(** X7: when the page loads and every link on it resolves,
    [fetchNotifications] returns one notification per list item, in page
    order, carrying the item's text, its resolved link ([null] without a
    non-empty [href]), the page's new-marker, and the urgency and category
    of the text; id and timestamp come from two consecutive readings of
    the clock; nothing is logged and no file is touched. *)
Theorem fetchNotifications_scrapes_every_item (items : list li) (w : world) :
  axios_get E = inl items ->
  forallb resolves items = true ->
  exists notifications w',
    fetchNotifications w = (Ok (Some notifications), w') /\
    Forall2 (fun element n =>
               exists k, n = scrapeOne (clock E k) (clock E (S k)) element)
            items notifications /\
    files w' = files w /\ trace w' = trace w.
Proof.
  intros Hpage Hall.
  destruct (mapM_buildNotification_resolves items Hall w)
    as [notifications [w' [He [Hf2 [Hf Ht]]]]].
  exists notifications, w'. split; [|repeat split; assumption].
  unfold fetchNotifications, tryCatch. rewrite Hpage.
  unfold bind. rewrite He. reflexivity.
Qed.

Lemma fetchNotifications_null (w : world) :
  (exists err, axios_get E = inr err) \/
  (exists items, axios_get E = inl items /\ forallb resolves items = false) ->
  exists w' more,
    fetchNotifications w = (Ok None, w') /\
    files w' = files w /\
    trace w' = trace w ++ EvConsole true "Error fetching notifications:"
                       :: more /\
    sends more = [].
Proof.
  assert (Hcatch : forall err w1,
    exists w' more,
      ((console_error "Error fetching notifications:" ;;
        (if response err then console_error "Status:" else ret tt) ;;
        ret None)%io : M (option (list notification))) w1 = (Ok None, w') /\
      files w' = files w1 /\
      trace w' = trace w1 ++ EvConsole true "Error fetching notifications:"
                          :: more /\
      sends more = []).
  { intros err w1. destruct (response err).
    - eexists. exists [EvConsole true "Status:"].
      split; [reflexivity|]. cbn [files trace].
      rewrite <- app_assoc. repeat split.
    - eexists. exists []. split; [reflexivity|]. repeat split. }
  intros [[err Herr]|[items [Hpage Hbad]]];
    unfold fetchNotifications, tryCatch.
  - rewrite Herr. unfold throw. apply Hcatch.
  - rewrite Hpage.
    destruct (mapM_buildNotification_throws items Hbad w)
      as [w1 [He [Hf Ht]]].
    unfold bind. rewrite He.
    destruct (Hcatch TypeError w1) as [w' [more [Hc [Hf' [Ht' Hs]]]]].
    exists w', more. split; [exact Hc|]. split; [congruence|].
    split; [congruence | exact Hs].
Qed.

(** X8: a single link that [new URL] refuses makes [fetchNotifications]
    give up the whole page: it returns [null], as after a failed request,
    logs the error and throws nothing, whatever the other items are. *)
Theorem fetchNotifications_bad_link_discards_page
        (items : list li) (w : world) :
  axios_get E = inl items ->
  forallb resolves items = false ->
  exists w' more,
    fetchNotifications w = (Ok None, w') /\
    files w' = files w /\
    trace w' = trace w ++ EvConsole true "Error fetching notifications:"
                       :: more.
Proof.
  intros Hpage Hbad.
  destruct (fetchNotifications_null w) as [w' [more [He [Hf [Ht _]]]]].
  { right. exists items. split; assumption. }
  exists w', more. repeat split; assumption.
Qed.

End FetchFacts.

(** ** Store, mailer and cycle *)

Lemma backupFile_other : CONFIG.storageFile ++ str ".backup" <> CONFIG.storageFile.
Proof.
  intros H. apply (f_equal (@length Z)) in H. vm_compute in H. discriminate H.
Qed.

Lemma filter_none {A} (f : A -> bool) (l : list A) :
  (forall x, In x l -> f x = false) -> List.filter f l = [].
Proof.
  induction l as [|x l IH]; intros Hall; [reflexivity|].
  cbn [List.filter]. rewrite (Hall x (or_introl eq_refl)).
  apply IH. intros y Hy. apply Hall. right. exact Hy.
Qed.

Lemma Forall2_map_eq {A B} (f : A -> B) (l : list A) (l' : list B) :
  Forall2 (fun a b => b = f a) l l' -> l' = List.map f l.
Proof.
  induction 1 as [|a b l l' Hab _ IH]; [reflexivity|].
  cbn [List.map]. rewrite Hab, IH. reflexivity.
Qed.

Section CycleFacts.

Variable toLowerCase : jsstring -> jsstring.
Variable toISOString : Z -> jsstring.
Variable parseDate : jsstring -> option Z.
Variable URL_href : jsstring -> option jsstring.
Variable JSON_stringify : list notification -> jsstring.
Variable JSON_parse : jsstring -> option (list notification).
Variable generateEmailHTML : list notification -> Z -> Z -> jsstring.

Local Abbreviation load := (loadPreviousNotifications JSON_parse).
Local Abbreviation save := (saveNotifications JSON_stringify).
Local Abbreviation send := (sendEmailNotification generateEmailHTML).
Local Abbreviation fetch := (fetchNotifications toLowerCase toISOString URL_href).
Local Abbreviation diff := (diffNotifications parseDate).
Local Abbreviation monitor :=
  (monitorNotifications toLowerCase toISOString parseDate URL_href
                        JSON_stringify JSON_parse generateEmailHTML).
Local Abbreviation start :=
  (startMonitoring toLowerCase toISOString parseDate URL_href
                   JSON_stringify JSON_parse generateEmailHTML).
Local Abbreviation scrape := (scrapeOne toLowerCase toISOString URL_href).
Local Abbreviation backupFile := (CONFIG.storageFile ++ str ".backup").

(** The world once the cycle has announced itself. *)
Local Abbreviation announced w :=
  {| files := files w; ticks := S (ticks w);
     trace := trace w ++
                [EvConsole false "Checking for new notifications..."] |}.

Lemma load_stored (E : env) (w : world) (data : jsstring)
      (history : list notification) :
  files w !! CONFIG.storageFile = Some data ->
  readFile_error E = None ->
  JSON_parse data = Some history ->
  load E w = (Ok history, w).
Proof.
  intros Hfile Hread Hparse.
  unfold load, tryCatch, bind, readFile.
  rewrite Hfile, Hread, Hparse. reflexivity.
Qed.

Lemma load_missing (E : env) (w : world) :
  files w !! CONFIG.storageFile = None -> load E w = (Ok [], w).
Proof.
  intros Hfile. unfold load, tryCatch, bind, readFile.
  rewrite Hfile. reflexivity.
Qed.

Lemma load_run (E : env) (w : world) :
  exists history w',
    load E w = (Ok history, w') /\
    files w' = files w /\ ticks w' = ticks w /\
    (trace w' = trace w \/
     trace w' = trace w ++
       [EvConsole true "Error loading previous notifications:"]).
Proof.
  assert (Hcatch : forall err w1,
    exists w',
      ((match code err with
        | Some c =>
            if strictEquals c (str "ENOENT") then ret tt
            else console_error "Error loading previous notifications:"
        | None => console_error "Error loading previous notifications:"
        end ;; ret [])%io : M (list notification)) w1 = (Ok [], w') /\
      files w' = files w1 /\ ticks w' = ticks w1 /\
      (trace w' = trace w1 \/
       trace w' = trace w1 ++
         [EvConsole true "Error loading previous notifications:"])).
  { intros err w1. destruct (code err) as [c|];
      [destruct (strictEquals c (str "ENOENT"))|];
      eexists; (split; [reflexivity|]); (split; [reflexivity|]);
        (split; [reflexivity|]);
        first [left; reflexivity | right; reflexivity]. }
  unfold load, tryCatch, bind at 1, readFile.
  destruct (files w !! CONFIG.storageFile) as [data|].
  - destruct (readFile_error E) as [err|].
    + destruct (Hcatch err w) as [w' H]. exists [], w'. exact H.
    + destruct (JSON_parse data) as [history|].
      * exists history, w. repeat split. left. reflexivity.
      * destruct (Hcatch SyntaxError w) as [w' H]. exists [], w'. exact H.
  - destruct (Hcatch ENOENT w) as [w' H]. exists [], w'. exact H.
Qed.

(** X9: when both writes of a save succeed, the history file and the
    backup hold the same text, and a load that can read the file and parse
    that text returns exactly the saved list, logging nothing. *)
Theorem save_then_load (E : env) (notifications : list notification)
        (w : world) :
  writeFile_error E backupFile = None ->
  writeFile_error E CONFIG.storageFile = None ->
  readFile_error E = None ->
  JSON_parse (JSON_stringify notifications) = Some notifications ->
  exists w1,
    save E notifications w = (Ok tt, w1) /\
    files w1 !! CONFIG.storageFile = Some (JSON_stringify notifications) /\
    files w1 !! backupFile = files w1 !! CONFIG.storageFile /\
    load E w1 = (Ok notifications, w1).
Proof.
  intros Hb Hs Hr Hjson.
  destruct (saveNotifications_cases JSON_stringify E notifications w)
    as [w1 [He [_ Hcases]]].
  cbv zeta in Hcases. rewrite Hb, Hs in Hcases.
  destruct Hcases as [Hf _].
  assert (Hmain : files w1 !! CONFIG.storageFile
                  = Some (JSON_stringify notifications)).
  { rewrite Hf. apply lookup_insert_eq. }
  exists w1. split; [exact He|]. split; [exact Hmain|]. split.
  - rewrite Hmain, Hf.
    rewrite lookup_insert_ne by (intros H; symmetry in H;
                                 exact (backupFile_other H)).
    apply lookup_insert_eq.
  - apply (load_stored E w1 _ _ Hmain Hr Hjson).
Qed.

(** X10: [sendEmailNotification] hands the mailer exactly one mail per
    call and never throws: it returns [true] when the mailer accepts the
    mail and [false] when it refuses, without a second attempt and without
    touching a file. *)
Theorem sendEmailNotification_once (E : env)
        (newNotifications : list notification) (w : world) :
  exists email accepted w',
    send E newNotifications w = (Ok accepted, w') /\
    (accepted = true <-> resend_send E = None) /\
    sends (trace w') = sends (trace w) ++ [email] /\
    subject email = emailSubject newNotifications /\
    files w' = files w.
Proof.
  destruct (sendEmailNotification_cases generateEmailHTML E
                                        newNotifications w)
    as [email [w' [He [Hsub [Hf Hs]]]]].
  exists email, (match resend_send E with None => true | Some _ => false end),
    w'.
  split; [exact He|]. split; [|repeat split; assumption].
  destruct (resend_send E); split; intros H;
    try reflexivity; discriminate H.
Qed.

Lemma cycle_prefix (E : env)
      (k : list notification -> option (list notification) -> M unit)
      (w w1 w2 : world) (previous : list notification)
      (fetched : option (list notification)) :
  load E (announced w) = (Ok previous, w1) ->
  fetch E w1 = (Ok fetched, w2) ->
  (Date_now E ;;
   console_log "Checking for new notifications..." ;;
   previousNotifications <- load E ;;
   fetched <- fetch E ;;
   k previousNotifications fetched)%io w
  = k previous fetched w2.
Proof.
  intros H1 H2. unfold bind at 1. unfold Date_now at 1.
  unfold bind at 1. unfold console_log at 1, emit at 1.
  cbn [files ticks trace].
  rewrite (bind_Ok _ _ _ _ _ H1), (bind_Ok _ _ _ _ _ H2).
  reflexivity.
Qed.

(** X11: when the request fails, or a link on the page does not resolve,
    the cycle ends without sending a mail and without writing a file,
    whatever is new on the page; it throws nothing. *)
Theorem monitorNotifications_skips_failed_fetch (E : env) (w : world) :
  (exists err, axios_get E = inr err) \/
  (exists items, axios_get E = inl items /\
                 forallb (resolves URL_href) items = false) ->
  exists w',
    monitor E w = (Ok tt, w') /\
    files w' = files w /\
    sends (trace w') = sends (trace w).
Proof.
  intros Hfail.
  destruct (load_run E (announced w))
    as [previous [w1 [H1 [Hf1 [_ Ht1]]]]].
  destruct (fetchNotifications_null toLowerCase toISOString URL_href E w1
                                    Hfail)
    as [w2 [more [H2 [Hf2 [Ht2 Hs2]]]]].
  unfold monitor. rewrite (cycle_prefix E _ w w1 w2 previous None H1 H2).
  eexists. split; [reflexivity|]. cbn [files trace]. split.
  - rewrite Hf2, Hf1. reflexivity.
  - rewrite Ht2. destruct Ht1 as [Ht1|Ht1]; rewrite Ht1; cbn [trace];
      rewrite !sends_app; cbn [sends]; rewrite Hs2, !app_nil_r;
      reflexivity.
Qed.

Lemma fetch_page (E : env) (now : Z) (items : list li) (w : world) :
  axios_get E = inl items ->
  forallb (resolves URL_href) items = true ->
  (forall k, clock E k = now) ->
  exists w',
    fetch E w = (Ok (Some (List.map (scrape now now) items)), w') /\
    files w' = files w /\ trace w' = trace w.
Proof.
  intros Hpage Hall Hclock.
  destruct (mapM_buildNotification_resolves toLowerCase toISOString URL_href
              E items Hall w)
    as [notifications [w' [He [Hf2 [Hf Ht]]]]].
  assert (Hmap : notifications = List.map (scrape now now) items).
  { apply Forall2_map_eq. eapply Forall2_impl; [exact Hf2|].
    intros element n [k ->]. rewrite !Hclock. reflexivity. }
  subst notifications. exists w'. split; [|split; assumption].
  unfold fetch, tryCatch. rewrite Hpage. unfold bind. rewrite He.
  reflexivity.
Qed.

Lemma cycle_deduped (E : env) (now : Z) (items : list li)
      (history : list notification) (data : jsstring) (w : world) :
  files w !! CONFIG.storageFile = Some data ->
  readFile_error E = None ->
  JSON_parse data = Some history ->
  axios_get E = inl items ->
  forallb (resolves URL_href) items = true ->
  (forall k, clock E k = now) ->
  (forall element, In element items ->
     exists prev t, In prev history /\ text prev = li_text element /\
                    parseDate (timestamp prev) = Some t /\
                    now - 86400000 < t) ->
  exists w',
    monitor E w = (Ok tt, w') /\
    files w' = files w /\
    sends (trace w') = sends (trace w).
Proof.
  intros Hfile Hread Hparse Hpage Hall Hclock Hseen.
  pose proof (load_stored E (announced w) data history Hfile Hread Hparse)
    as H1.
  destruct (fetch_page E now items (announced w) Hpage Hall Hclock)
    as [w2 [H2 [Hf2 Ht2]]].
  destruct (diffNotifications_still parseDate E now Hclock
              (List.map (scrape now now) items) history w2)
    as [w3 [H3 [Hf3 Ht3]]].
  rewrite filter_none in H3.
  2:{ intros c Hc. apply in_map_iff in Hc.
      destruct Hc as [element [<- Hin]].
      destruct (Hseen element Hin) as [prev [t [Hp [Htx [Hts Hlt]]]]].
      apply negb_false_iff. apply existsb_exists. exists prev.
      split; [exact Hp|]. apply duplicateOf_spec. right.
      split; [exact Htx | exists t; split; assumption]. }
  unfold monitor.
  rewrite (cycle_prefix E _ w _ w2 history _ H1 H2).
  rewrite (bind_Ok _ _ _ _ _ H3). cbn [length Nat.ltb Nat.leb].
  eexists. split; [reflexivity|]. cbn [files trace]. split.
  - rewrite Hf3, Hf2. reflexivity.
  - rewrite Ht3, Ht2. cbn [trace]. rewrite !sends_app. cbn [sends].
    rewrite !app_nil_r. reflexivity.
Qed.

(** X12: when the history file parses to a history in which every text on
    the page occurs with a timestamp less than 24 hours before the clock
    reading of the cycle, the cycle sends no mail and writes no file. *)
Theorem monitorNotifications_deduped (E : env) (now : Z) (items : list li)
        (history : list notification) (data : jsstring) (w : world) :
  files w !! CONFIG.storageFile = Some data ->
  readFile_error E = None ->
  JSON_parse data = Some history ->
  axios_get E = inl items ->
  forallb (resolves URL_href) items = true ->
  (forall k, clock E k = now) ->
  (forall element, In element items ->
     exists prev t, In prev history /\ text prev = li_text element /\
                    parseDate (timestamp prev) = Some t /\
                    now - 86400000 < t) ->
  exists w',
    monitor E w = (Ok tt, w') /\
    files w' = files w /\
    sends (trace w') = sends (trace w).
Proof. apply cycle_deduped. Qed.

(** X13: on a fresh installation (no history file) whose page has at least
    one item, a cycle with a willing mailer and disk sends one mail for
    the whole page and stores the scraped notices; a second cycle on the
    same page, less than 24 hours later by the clock, sends nothing and
    leaves the files as they are. *)
Theorem monitorNotifications_alerts_once
        (E1 E2 : env) (now1 now2 : Z) (items : list li) (w : world) :
  files w !! CONFIG.storageFile = None ->
  items <> [] ->
  forallb (resolves URL_href) items = true ->
  axios_get E1 = inl items ->
  (forall k, clock E1 k = now1) ->
  resend_send E1 = None ->
  (forall file, writeFile_error E1 file = None) ->
  JSON_parse (JSON_stringify (List.map (scrape now1 now1) items))
  = Some (List.map (scrape now1 now1) items) ->
  parseDate (toISOString now1) = Some now1 ->
  axios_get E2 = inl items ->
  (forall k, clock E2 k = now2) ->
  readFile_error E2 = None ->
  now2 - 86400000 < now1 ->
  exists w1 w2 email,
    monitor E1 w = (Ok tt, w1) /\
    monitor E2 w1 = (Ok tt, w2) /\
    sends (trace w1) = sends (trace w) ++ [email] /\
    subject email = emailSubject (List.map (scrape now1 now1) items) /\
    files w1 !! CONFIG.storageFile
    = Some (JSON_stringify (List.map (scrape now1 now1) items)) /\
    sends (trace w2) = sends (trace w1) /\
    files w2 = files w1.
Proof.
  intros Hfresh Hne Hall Hpage1 Hclock1 Hmail Hdisk Hjson Hiso
         Hpage2 Hclock2 Hread Hwithin.
  set (stored := List.map (scrape now1 now1) items) in *.
  pose proof (load_missing E1 (announced w) Hfresh) as H1.
  destruct (fetch_page E1 now1 items (announced w) Hpage1 Hall Hclock1)
    as [wf [H2 [Hff Htf]]]. fold stored in H2.
  pose proof (diffNotifications_nil parseDate E1 stored wf) as H3.
  pose (wl := {| files := files wf; ticks := ticks wf;
                 trace := trace wf ++
                   [EvConsole false "Found new notifications"] |}).
  destruct (sendEmailNotification_cases generateEmailHTML E1 stored wl)
    as [email [ws [H5 [Hsub [Hfs Hss]]]]].
  rewrite Hmail in H5.
  destruct (saveNotifications_cases JSON_stringify E1 (stored ++ []) ws)
    as [w1 [H6 [_ Hcases]]].
  cbv zeta in Hcases. rewrite !Hdisk, app_nil_r in Hcases.
  destruct Hcases as [Hf1 Ht1].
  assert (Hrun1 : monitor E1 w = (Ok tt, w1)).
  { unfold monitor.
    rewrite (cycle_prefix E1 _ w _ wf [] _ H1 H2).
    rewrite (bind_Ok _ _ _ _ _ H3).
    assert (Hpos : (0 <? length stored)%nat = true).
    { unfold stored. destruct items; [destruct (Hne eq_refl) | reflexivity]. }
    rewrite Hpos.
    rewrite (bind_Ok (console_log "Found new notifications") _ wf wl tt
                     eq_refl).
    rewrite (bind_Ok _ _ _ _ _ H5). exact H6. }
  assert (Hstored : files w1 !! CONFIG.storageFile
                    = Some (JSON_stringify stored)).
  { rewrite Hf1. apply lookup_insert_eq. }
  destruct (cycle_deduped E2 now2 items stored (JSON_stringify stored) w1
              Hstored Hread Hjson Hpage2 Hall Hclock2)
    as [w2 [Hrun2 [Hf2 Hs2]]].
  { intros element Hin. exists (scrape now1 now1 element), now1.
    split; [apply in_map; exact Hin|]. split; [reflexivity|].
    split; [exact Hiso | exact Hwithin]. }
  exists w1, w2, email.
  split; [exact Hrun1|]. split; [exact Hrun2|]. split.
  - rewrite Ht1, sends_app. cbn [sends]. rewrite app_nil_r, Hss.
    unfold wl. cbn [trace]. rewrite sends_app. cbn [sends].
    rewrite app_nil_r, Htf. cbn [trace]. rewrite sends_app. cbn [sends].
    rewrite app_nil_r. reflexivity.
  - split; [exact Hsub|]. split; [exact Hstored|].
    split; [exact Hs2 | exact Hf2].
Qed.

Lemma total_monitor (E : env) : total (monitor E).
Proof.
  unfold monitor, monitorNotifications.
  apply total_bind; [apply total_Date_now|]. intros _.
  apply total_bind; [apply total_emit|]. intros _.
  apply total_bind; [apply total_loadPreviousNotifications|].
  intros previous.
  apply total_bind; [apply total_fetchNotifications|].
  intros [current|]; [|apply total_emit].
  apply total_bind; [apply total_diffNotifications|]. intros newOnes.
  destruct (0 <? length newOnes)%nat; [|apply total_emit].
  apply total_bind; [apply total_emit|]. intros _.
  apply total_bind.
  - intros w.
    destruct (sendEmailNotification_cases generateEmailHTML E newOnes w)
      as [email [w' [He _]]].
    eexists. rewrite He. reflexivity.
  - intros [|]; [|apply total_ret]. intros w.
    destruct (saveNotifications_cases JSON_stringify E
                                      (newOnes ++ previous) w)
      as [w' [He _]].
    exists tt. rewrite He. reflexivity.
Qed.

(** X14: [startMonitoring] never exits the process and never writes an
    empty history of its own: [loadPreviousNotifications] cannot throw, so
    the block meant to create the initial storage file never runs; apart
    from console output, start-up does what one cycle does and then
    installs the timer. *)
Theorem startMonitoring_runs_one_cycle (E : env) (w : world) :
  exists logs w0 w',
    start E w = (Ok Scheduled, w') /\
    files w0 = files w /\ ticks w0 = ticks w /\
    trace w0 = trace w ++ logs /\
    Forall (fun ev => exists isError label, ev = EvConsole isError label)
           logs /\
    monitor E w0 = (Ok tt, w').
Proof.
  pose (w1 := {| files := files w; ticks := ticks w;
                 trace := trace w ++
                   [EvConsole false
                      "Starting enhanced BAOU notification monitoring service..."]
              |}).
  pose (w2 := {| files := files w1; ticks := ticks w1;
                 trace := trace w1 ++
                   [EvConsole false "Configuration: Check interval ="] |}).
  destruct (load_run E w2) as [history [w0 [Hl [Hf0 [Hk0 Ht0]]]]].
  destruct (total_monitor E w0) as [u Hu].
  destruct (monitor E w0) as [r w'] eqn:Hm. cbn [fst] in Hu. subst r.
  destruct u.
  assert (Hrun : start E w = (Ok Scheduled, w')).
  { unfold start, startMonitoring.
    rewrite (bind_Ok (console_log
               "Starting enhanced BAOU notification monitoring service...")
               _ w w1 tt eq_refl).
    rewrite (bind_Ok (console_log "Configuration: Check interval =")
               _ w1 w2 tt eq_refl).
    unfold bind at 1. unfold tryCatch at 1. unfold bind at 1.
    rewrite Hl. unfold ret at 1.
    unfold tryCatch, bind. rewrite Hm. reflexivity. }
  assert (Hc : forall b l, exists isError label,
               EvConsole b l = EvConsole isError label) by eauto.
  destruct Ht0 as [Ht0|Ht0].
  - exists [EvConsole false
              "Starting enhanced BAOU notification monitoring service...";
            EvConsole false "Configuration: Check interval ="], w0, w'.
    split; [exact Hrun|]. split; [rewrite Hf0; reflexivity|].
    split; [rewrite Hk0; reflexivity|].
    split; [rewrite Ht0; unfold w2, w1; cbn [trace];
            rewrite <- app_assoc; reflexivity|].
    split; [repeat constructor; apply Hc | exact Hm].
  - exists [EvConsole false
              "Starting enhanced BAOU notification monitoring service...";
            EvConsole false "Configuration: Check interval =";
            EvConsole true "Error loading previous notifications:"], w0, w'.
    split; [exact Hrun|]. split; [rewrite Hf0; reflexivity|].
    split; [rewrite Hk0; reflexivity|].
    split; [rewrite Ht0; unfold w2, w1; cbn [trace];
            rewrite <- !app_assoc; reflexivity|].
    split; [repeat constructor; apply Hc | exact Hm].
Qed.

Lemma sublist_In {A} (out l : list A) (c : A) :
  sublist out l -> In c out -> In c l.
Proof.
  induction 1 as [|x out l _ IH|x out l _ IH]; intros Hin.
  - destruct Hin.
  - destruct Hin as [<-|Hin]; [left; reflexivity | right; exact (IH Hin)].
  - right. exact (IH Hin).
Qed.

Lemma Forall2_In_r {A B} (R : A -> B -> Prop) (l : list A) (l' : list B)
      (b : B) :
  Forall2 R l l' -> In b l' -> exists a, In a l /\ R a b.
Proof.
  induction 1 as [|a0 b0 l l' Hab _ IH]; intros Hin; [destruct Hin|].
  destruct Hin as [<-|Hin].
  - exists a0. split; [left; reflexivity | exact Hab].
  - destruct (IH Hin) as [a [Ha HR]]. exists a. split; [right|]; assumption.
Qed.

(** X15: once the history holds a notice whose id was made by
    [generateNotificationId], every later cycle that scrapes a text of nine
    bytes or more with the same first nine bytes drops it by id, at any
    clock reading: when this covers the whole page, the cycle sends no mail
    and writes no file, however long ago the entry was stored. *)
Theorem monitorNotifications_never_realerts
        (E : env) (items : list li) (history : list notification)
        (data : jsstring) (w : world) :
  files w !! CONFIG.storageFile = Some data ->
  readFile_error E = None ->
  JSON_parse data = Some history ->
  axios_get E = inl items ->
  forallb (resolves URL_href) items = true ->
  (forall element, In element items ->
     (9 <= length (Buffer_from (li_text element)))%nat /\
     exists prev tp,
       In prev history /\
       id prev = generateNotificationId (text prev) tp /\
       firstn 9 (Buffer_from (li_text element))
       = firstn 9 (Buffer_from (text prev))) ->
  exists w',
    monitor E w = (Ok tt, w') /\
    files w' = files w /\
    sends (trace w') = sends (trace w).
Proof.
  intros Hfile Hread Hparse Hpage Hall Hold.
  pose proof (load_stored E (announced w) data history Hfile Hread Hparse)
    as H1.
  destruct (mapM_buildNotification_resolves toLowerCase toISOString URL_href
              E items Hall (announced w))
    as [current [w2 [He [Hf2 [Hff Htf]]]]].
  assert (H2 : fetch E (announced w) = (Ok (Some current), w2)).
  { unfold fetch, tryCatch. rewrite Hpage. unfold bind. rewrite He.
    reflexivity. }
  destruct (filterM_out
              (fun c => bind (someM (alreadySeen parseDate E c) history)
                             (fun seen => ret (negb seen)))
              current (total_isNewNotice parseDate E history) w2)
    as [out [w3 [H3 [Hsub [Hdrop _]]]]].
  assert (Hout : out = []).
  { destruct out as [|c out]; [reflexivity|]. exfalso.
    assert (Hc : In c current).
    { apply (sublist_In _ _ _ Hsub). left. reflexivity. }
    destruct (Forall2_In_r _ _ _ _ Hf2 Hc) as [element [Hel [k Hk]]].
    destruct (Hold element Hel) as [Hlen [prev [tp [Hp [Hid Hpre]]]]].
    apply (Hdrop c); [|left; reflexivity].
    apply (isNewNotice_same_id parseDate E history c prev Hp).
    rewrite Hid, Hk. cbn [id scrapeOne]. symmetry.
    apply generateNotificationId_prefix_eq; assumption. }
  subst out.
  pose proof (quiet_diffNotifications parseDate E current history w2) as Hq.
  unfold diffNotifications in Hq. rewrite H3 in Hq. cbn [snd] in Hq.
  destruct Hq as [Hf3 Hs3].
  unfold monitor.
  rewrite (cycle_prefix E _ w _ w2 history _ H1 H2).
  unfold diffNotifications. rewrite (bind_Ok _ _ _ _ _ H3).
  cbn [length Nat.ltb Nat.leb].
  eexists. split; [reflexivity|]. cbn [files trace]. split.
  - rewrite Hf3, Hff. reflexivity.
  - rewrite sends_app. cbn [sends]. rewrite app_nil_r, Hs3, Htf.
    cbn [trace]. rewrite sends_app. cbn [sends]. apply app_nil_r.
Qed.

End CycleFacts.

(** ** Ids and the length of the text *)

Lemma utf8_length (cp : Z) :
  (1 <= length (utf8 cp))%nat /\ (128 <= cp -> (2 <= length (utf8 cp))%nat).
Proof.
  unfold utf8.
  destruct (Z.ltb_spec cp 128); [cbn [length]; split; lia|].
  destruct (cp <? 2048); [cbn [length]; split; lia|].
  destruct (cp <? 65536); cbn [length]; split; lia.
Qed.

Lemma Buffer_from_length_bounded (n : nat) :
  forall s : jsstring,
    (length s <= n)%nat -> (length s <= length (Buffer_from s))%nat.
Proof.
  induction n as [|n IH]; intros s Hl.
  - destruct s; [cbn; lia | simpl in Hl; lia].
  - destruct s as [|c [|d rest]].
    + cbn. lia.
    + cbn [Buffer_from]. pose proof (utf8_length c) as [Hu _].
      destruct (isHighSurrogate c); [cbn; lia|].
      destruct (isLowSurrogate c); rewrite length_app; unfold replacement;
        cbn [length] in *; lia.
    + assert (Hd : (length (d :: rest) <= length (Buffer_from (d :: rest)))%nat)
        by (apply IH; simpl in *; lia).
      assert (Hr : (length rest <= length (Buffer_from rest))%nat)
        by (apply IH; simpl in *; lia).
      change (Buffer_from (c :: d :: rest))
        with (if isHighSurrogate c then
                if isLowSurrogate d
                then utf8 (65536 + (c - 55296) * 1024 + (d - 56320))
                       ++ Buffer_from rest
                else replacement ++ Buffer_from (d :: rest)
              else if isLowSurrogate c
                   then replacement ++ Buffer_from (d :: rest)
                   else utf8 c ++ Buffer_from (d :: rest)).
      pose proof (utf8_length c) as [Hu _].
      destruct (isHighSurrogate c) eqn:Hc.
      * destruct (isLowSurrogate d) eqn:Hld.
        -- unfold isHighSurrogate in Hc. unfold isLowSurrogate in Hld.
           apply andb_true_iff in Hc. apply andb_true_iff in Hld.
           destruct Hc as [Hc1 _], Hld as [Hd1 _].
           apply Z.leb_le in Hc1. apply Z.leb_le in Hd1.
           pose proof (utf8_length (65536 + (c - 55296) * 1024 + (d - 56320)))
             as [_ Hp].
           rewrite length_app. cbn [length] in *.
           assert (H2 : (2 <= length (utf8 (65536 + (c - 55296) * 1024
                                             + (d - 56320))))%nat)
             by (apply Hp; lia).
           lia.
        -- rewrite length_app. unfold replacement. cbn [length] in *. lia.
      * destruct (isLowSurrogate c); rewrite length_app; unfold replacement;
          cbn [length] in *; lia.
Qed.

(** X16: for every text of nine UTF-16 code units or more, the timestamp
    has no influence on the id: any two timestamps give the same id. *)
Theorem generateNotificationId_nine_code_units (text t1 t2 : jsstring) :
  (9 <= length text)%nat ->
  generateNotificationId text t1 = generateNotificationId text t2.
Proof.
  intros Hlen. apply generateNotificationId_ignores_timestamp.
  pose proof (Buffer_from_length_bounded (length text) text (Nat.le_refl _)).
  lia.
Qed.

(** ** Keyword tables *)

Section KeywordFacts.

Variable toLowerCase : jsstring -> jsstring.

(** On a string of ASCII code units the host lowers A-Z and nothing else,
    and lowering never empties a string. *)
Hypothesis toLowerCase_ascii :
  forall s, forallb is_ascii s = true -> toLowerCase s = asciiLowerCase s.
Hypothesis toLowerCase_nonempty :
  forall s, toLowerCase s = [] -> s = [].

(** X17: a text classified DEADLINE is also urgent, unless the keyword that
    made it a DEADLINE is "last date" or the Gujarati phrase: "deadline"
    is an urgency keyword itself and "due date" contains the urgency
    keyword "due". *)
Theorem deadline_is_urgent_or_last_date (text : jsstring) :
  categorizeNotification toLowerCase text = DEADLINE ->
  detectUrgency toLowerCase text = true \/
  occursIn toLowerCase (str "last date") text \/
  occursIn toLowerCase
           [2693; 2690; 2724; 2751; 2734; 32; 2724; 2750; 2736; 2752; 2710]
           text.
Proof using toLowerCase_ascii.
  unfold categorizeNotification, categories. cbn [categorizeLoop].
  repeat match goal with
         | |- (if ?b then _ else _) = DEADLINE -> _ =>
             destruct b eqn:?; [try discriminate|]
         end; try discriminate.
  intros _.
  match goal with
  | H : someKeyword _ _ _ = true |- _ =>
      apply someKeyword_spec in H; destruct H as [kw [Hin Hocc]]
  end.
  destruct Hin as [<-|[<-|[<-|[<-|[]]]]].
  - right. left. exact Hocc.
  - left. apply someKeyword_spec. exists (str "deadline").
    split; [unfold urgentKeywords; simpl; tauto | exact Hocc].
  - left. apply someKeyword_spec. exists (str "due").
    split; [unfold urgentKeywords; simpl; tauto|].
    destruct Hocc as [before [after Heq]].
    exists before, (str " date" ++ after).
    rewrite Heq, (toLowerCase_ascii (str "due date") eq_refl),
      (toLowerCase_ascii (str "due") eq_refl).
    reflexivity.
  - right. right. exact Hocc.
Qed.

Lemma someKeyword_empty_text (keywords : list jsstring) :
  forallb (fun kw => negb (Nat.eqb (length kw) 0)) keywords = true ->
  someKeyword toLowerCase [] keywords = false.
Proof using toLowerCase_ascii toLowerCase_nonempty.
  intros Hne. unfold someKeyword.
  rewrite (toLowerCase_ascii [] eq_refl). cbn [asciiLowerCase List.map].
  induction keywords as [|kw keywords IH]; [reflexivity|].
  cbn [forallb] in Hne. apply andb_true_iff in Hne.
  destruct Hne as [Hkw Hrest]. cbn [existsb].
  rewrite (IH Hrest), orb_false_r.
  destruct (toLowerCase kw) as [|c lowered] eqn:Hl; [|reflexivity].
  apply toLowerCase_nonempty in Hl. subst kw. discriminate Hkw.
Qed.

(** X18: an item with empty text is scraped as not urgent and OTHER: no
    keyword occurs in the empty string. *)
Theorem empty_text_is_plain :
  detectUrgency toLowerCase [] = false /\
  categorizeNotification toLowerCase [] = OTHER.
Proof using toLowerCase_ascii toLowerCase_nonempty.
  split.
  - apply someKeyword_empty_text. reflexivity.
  - unfold categorizeNotification, categories. cbn [categorizeLoop].
    rewrite !someKeyword_empty_text by reflexivity. reflexivity.
Qed.

End KeywordFacts.

(** ** The characters of an id *)

Lemma lor_below (n a b : Z) :
  0 <= n -> 0 <= a < 2 ^ n -> 0 <= b < 2 ^ n -> 0 <= Z.lor a b < 2 ^ n.
Proof.
  intros Hn [Ha0 Ha] [Hb0 Hb]. split; [apply Z.lor_nonneg; split; assumption|].
  destruct (Z.eq_dec a 0) as [->|Hane]; [rewrite Z.lor_0_l; exact Hb|].
  destruct (Z.eq_dec b 0) as [->|Hbne]; [rewrite Z.lor_0_r; exact Ha|].
  assert (Hpos : 0 < Z.lor a b).
  { assert (H0 : 0 <= Z.lor a b) by (apply Z.lor_nonneg; split; assumption).
    assert (Hne : Z.lor a b <> 0).
    { intros H. apply Z.lor_eq_0_iff in H. destruct H as [H _]. lia. }
    lia. }
  apply Z.log2_lt_pow2; [exact Hpos|].
  rewrite Z.log2_lor by assumption.
  apply Z.max_lub_lt; apply Z.log2_lt_pow2; lia.
Qed.

Lemma shiftr_below (a k m : Z) :
  0 <= k -> 0 <= a < m * 2 ^ k -> 0 <= Z.shiftr a k < m.
Proof.
  intros Hk [Ha0 Ha]. rewrite Z.shiftr_div_pow2 by exact Hk.
  assert (Hp : 0 < 2 ^ k) by (apply Z.pow_pos_nonneg; lia).
  split; [apply Z.div_pos; lia | apply Z.div_lt_upper_bound; lia].
Qed.

Lemma land_below (a k : Z) :
  0 <= k -> 0 <= Z.land a (Z.ones k) < 2 ^ k.
Proof.
  intros Hk. rewrite Z.land_ones by exact Hk.
  apply Z.mod_pos_bound. apply Z.pow_pos_nonneg; lia.
Qed.

Lemma utf8_bytes (cp : Z) :
  0 <= cp < 1114112 -> Forall (fun b => 0 <= b < 256) (utf8 cp).
Proof.
  intros Hcp. unfold utf8.
  assert (Hcont : forall x, 0 <= Z.lor 128 (Z.land x 63) < 256).
  { intros x. apply (lor_below 8); [lia | lia |].
    pose proof (land_below x 6 ltac:(lia)) as H.
    change (Z.ones 6) with 63 in H. change (2 ^ 6) with 64 in H.
    change (2 ^ 8) with 256. lia. }
  destruct (Z.ltb_spec cp 128); [constructor; [lia | constructor]|].
  destruct (Z.ltb_spec cp 2048).
  - assert (Hlead : 0 <= Z.lor 192 (Z.shiftr cp 6) < 256).
    { apply (lor_below 8); [lia | lia |].
      pose proof (shiftr_below cp 6 32 ltac:(lia) ltac:(lia)).
      change (2 ^ 8) with 256. lia. }
    repeat (constructor; [first [exact Hlead | apply Hcont]|]). constructor.
  - destruct (Z.ltb_spec cp 65536).
    + assert (Hlead : 0 <= Z.lor 224 (Z.shiftr cp 12) < 256).
      { apply (lor_below 8); [lia | lia |].
        pose proof (shiftr_below cp 12 16 ltac:(lia) ltac:(lia)).
        change (2 ^ 8) with 256. lia. }
      repeat (constructor; [first [exact Hlead | apply Hcont]|]).
      constructor.
    + assert (Hlead : 0 <= Z.lor 240 (Z.shiftr cp 18) < 256).
      { apply (lor_below 8); [lia | lia |].
        pose proof (shiftr_below cp 18 5 ltac:(lia) ltac:(lia)).
        change (2 ^ 8) with 256. lia. }
      repeat (constructor; [first [exact Hlead | apply Hcont]|]).
      constructor.
Qed.

Lemma Buffer_from_bytes_bounded (n : nat) :
  forall s : jsstring,
    (length s <= n)%nat ->
    Forall (fun u => 0 <= u < 65536) s ->
    Forall (fun b => 0 <= b < 256) (Buffer_from s).
Proof.
  assert (Hrep : Forall (fun b => 0 <= b < 256) replacement)
    by (repeat (constructor; [lia|]); constructor).
  induction n as [|n IH]; intros s Hl Hs.
  - destruct s; [constructor | simpl in Hl; lia].
  - destruct s as [|c rest]; [constructor|].
    inversion Hs as [|? ? Hc Hrest]; subst.
    assert (IHrest : Forall (fun b => 0 <= b < 256) (Buffer_from rest))
      by (apply IH; [simpl in Hl; lia | exact Hrest]).
    cbn [Buffer_from].
    destruct (isHighSurrogate c) eqn:Hhi.
    + destruct rest as [|d rest']; [exact Hrep|].
      destruct (isLowSurrogate d) eqn:Hlo.
      * inversion Hrest as [|? ? Hd Hrest']; subst.
        apply Forall_app. split.
        -- apply utf8_bytes. unfold isHighSurrogate in Hhi.
           unfold isLowSurrogate in Hlo.
           apply andb_true_iff in Hhi. apply andb_true_iff in Hlo.
           destruct Hhi as [H1 H2], Hlo as [H3 H4].
           apply Z.leb_le in H1, H2, H3, H4. lia.
        -- apply IH; [simpl in Hl; lia | exact Hrest'].
      * apply Forall_app. split; [exact Hrep | exact IHrest].
    + destruct (isLowSurrogate c).
      * apply Forall_app. split; [exact Hrep | exact IHrest].
      * apply Forall_app. split; [apply utf8_bytes; lia | exact IHrest].
Qed.

Lemma base64Char_alphabet (i : Z) :
  0 <= i < 64 -> In (base64Char i) base64Alphabet.
Proof.
  intros Hi. unfold base64Char. apply nth_In.
  change (length base64Alphabet) with 64%nat. lia.
Qed.

(** The four indices read from a group of three bytes. *)
Lemma sextets (a b c : Z) :
  0 <= a < 256 -> 0 <= b < 256 -> 0 <= c < 256 ->
  0 <= Z.shiftr a 2 < 64 /\
  0 <= Z.lor (Z.shiftl (Z.land a 3) 4) (Z.shiftr b 4) < 64 /\
  0 <= Z.lor (Z.shiftl (Z.land b 15) 2) (Z.shiftr c 6) < 64 /\
  0 <= Z.land c 63 < 64 /\
  0 <= Z.shiftl (Z.land a 3) 4 < 64 /\
  0 <= Z.shiftl (Z.land b 15) 2 < 64.
Proof.
  intros Ha Hb Hc.
  pose proof (shiftr_below a 2 64 ltac:(lia) ltac:(lia)) as H1.
  pose proof (shiftr_below b 4 16 ltac:(lia) ltac:(lia)) as H2.
  pose proof (shiftr_below c 6 4 ltac:(lia) ltac:(lia)) as H3.
  pose proof (land_below a 2 ltac:(lia)) as H4.
  pose proof (land_below b 4 ltac:(lia)) as H5.
  pose proof (land_below c 6 ltac:(lia)) as H6.
  change (Z.ones 2) with 3 in H4. change (Z.ones 4) with 15 in H5.
  change (Z.ones 6) with 63 in H6.
  change (2 ^ 2) with 4 in H4. change (2 ^ 4) with 16 in H5.
  change (2 ^ 6) with 64 in H6.
  assert (H7 : 0 <= Z.shiftl (Z.land a 3) 4 < 64)
    by (rewrite Z.shiftl_mul_pow2 by lia; change (2 ^ 4) with 16; lia).
  assert (H8 : 0 <= Z.shiftl (Z.land b 15) 2 < 64)
    by (rewrite Z.shiftl_mul_pow2 by lia; change (2 ^ 2) with 4; lia).
  repeat split; try lia;
    try (apply (lor_below 6); change (2 ^ 6) with 64; lia).
Qed.

Lemma toBase64_alphabet_bounded (n : nat) :
  forall bytes : list Z,
    (length bytes <= n)%nat ->
    Forall (fun b => 0 <= b < 256) bytes ->
    Forall (fun c => In c base64Alphabet \/ c = 61) (toBase64 bytes) /\
    ((length bytes mod 3 = 0)%nat ->
     Forall (fun c => In c base64Alphabet) (toBase64 bytes)).
Proof.
  induction n as [|n IH]; intros bytes Hl Hb.
  - destruct bytes; [split; constructor | simpl in Hl; lia].
  - destruct bytes as [|a [|b [|c rest]]].
    + split; constructor.
    + inversion Hb as [|? ? Ha _]; subst.
      destruct (sextets a 0 0 Ha ltac:(lia) ltac:(lia))
        as [H1 [_ [_ [_ [H5 _]]]]].
      split; [|intros H; discriminate H].
      cbn [toBase64].
      repeat (constructor;
              [first [left; apply base64Char_alphabet; assumption
                     | right; reflexivity]|]).
      constructor.
    + inversion Hb as [|? ? Ha Hb']; subst.
      inversion Hb' as [|? ? Hb0 _]; subst.
      destruct (sextets a b 0 Ha Hb0 ltac:(lia))
        as [H1 [H2 [_ [_ [_ H6]]]]].
      split; [|intros H; discriminate H].
      cbn [toBase64].
      repeat (constructor;
              [first [left; apply base64Char_alphabet; assumption
                     | right; reflexivity]|]).
      constructor.
    + inversion Hb as [|? ? Ha Hb']; subst.
      inversion Hb' as [|? ? Hb0 Hb'']; subst.
      inversion Hb'' as [|? ? Hc Hrest]; subst.
      destruct (sextets a b c Ha Hb0 Hc) as [H1 [H2 [H3 [H4 _]]]].
      destruct (IH rest ltac:(simpl in Hl; lia) Hrest) as [IH1 IH2].
      cbn [toBase64]. split.
      * repeat (constructor;
                [left; apply base64Char_alphabet; assumption|]).
        exact IH1.
      * intros Hmod.
        repeat (constructor; [apply base64Char_alphabet; assumption|]).
        apply IH2. cbn [length] in Hmod.
        replace (S (S (S (length rest)))) with (length rest + 1 * 3)%nat
          in Hmod by lia.
        rewrite Nat.Div0.mod_add in Hmod. exact Hmod.
Qed.

(** X19: when the text and the timestamp are strings of UTF-16 code
    units, every character of the id is one of the 64 characters of the
    base64 alphabet or the padding sign, and an id spelled from nine bytes
    (text and timestamp together encode to eight bytes or more) has no
    padding. *)
Theorem generateNotificationId_alphabet (text timestamp : jsstring) :
  Forall (fun u => 0 <= u < 65536) text ->
  Forall (fun u => 0 <= u < 65536) timestamp ->
  Forall (fun c => In c base64Alphabet \/ c = 61)
         (generateNotificationId text timestamp) /\
  ((8 <= length (Buffer_from text) + length (Buffer_from timestamp))%nat ->
   Forall (fun c => In c base64Alphabet)
          (generateNotificationId text timestamp)).
Proof.
  intros Htext Hts. rewrite generateNotificationId_prefix.
  set (bytes := Buffer_from text ++ 45 :: Buffer_from timestamp).
  assert (Hbytes : Forall (fun b => 0 <= b < 256) (firstn 9 bytes)).
  { apply Forall_take. unfold bytes. apply Forall_app. split.
    - apply (Buffer_from_bytes_bounded (length text)); [lia | exact Htext].
    - constructor; [lia|].
      apply (Buffer_from_bytes_bounded (length timestamp));
        [lia | exact Hts]. }
  destruct (toBase64_alphabet_bounded _ _ (Nat.le_refl _) Hbytes)
    as [Hall Hnopad].
  split; [exact Hall|]. intros Hlen. apply Hnopad.
  rewrite length_take. unfold bytes. rewrite length_app. cbn [length].
  replace (9 `min` (length (Buffer_from text)
                    + S (length (Buffer_from timestamp))))%nat
    with 9%nat by lia.
  reflexivity.
Qed.

(** ** The interval *)

(** X20: the callback installed with [setInterval] does exactly what
    [monitorNotifications] does: the cycle never rejects, so the handler
    that would log "Error in monitoring cycle" never runs. *)
Theorem intervalCallback_is_cycle
        (toLowerCase : jsstring -> jsstring) (toISOString : Z -> jsstring)
        (parseDate : jsstring -> option Z)
        (URL_href : jsstring -> option jsstring)
        (JSON_stringify : list notification -> jsstring)
        (JSON_parse : jsstring -> option (list notification))
        (generateEmailHTML : list notification -> Z -> Z -> jsstring)
        (E : env) (w : world) :
  intervalCallback toLowerCase toISOString parseDate URL_href
                   JSON_stringify JSON_parse generateEmailHTML E w
  = monitorNotifications toLowerCase toISOString parseDate URL_href
                         JSON_stringify JSON_parse generateEmailHTML E w
  /\ exists w',
      monitorNotifications toLowerCase toISOString parseDate URL_href
                           JSON_stringify JSON_parse generateEmailHTML E w
      = (Ok tt, w').
Proof.
  destruct (total_monitor toLowerCase toISOString parseDate URL_href
                          JSON_stringify JSON_parse generateEmailHTML E w)
    as [u Hu].
  unfold intervalCallback, tryCatch.
  destruct (monitorNotifications toLowerCase toISOString parseDate URL_href
              JSON_stringify JSON_parse generateEmailHTML E w)
    as [r w'].
  cbn [fst] in Hu. subst r. destruct u.
  split; [reflexivity | exists w'; reflexivity].
Qed.

(** * The further properties on the example pages *)

Lemma code_units_checked (s : jsstring) :
  forallb (fun u => (0 <=? u) && (u <? 65536)) s = true ->
  Forall (fun u => 0 <= u < 65536) s.
Proof.
  induction s as [|u s IH]; intros H; [constructor|].
  cbn [forallb] in H. apply andb_true_iff in H. destruct H as [Hu Hs].
  apply andb_true_iff in Hu. destruct Hu as [H1 H2].
  apply Z.leb_le in H1. apply Z.ltb_lt in H2.
  constructor; [lia | exact (IH Hs)].
Qed.

Lemma asciiLowerCase_nonempty (s : jsstring) : asciiLowerCase s = [] -> s = [].
Proof. destruct s; [reflexivity | discriminate]. Qed.

Lemma generateNotificationId_shared_prefix_witness :
  generateNotificationId Fixture.julyText (Sample.toISOString Sample.earlier)
  = generateNotificationId Fixture.januaryText
      (Sample.toISOString Sample.later).
Proof.
  apply generateNotificationId_shared_prefix;
    [vm_compute; lia | vm_compute; reflexivity].
Defined.

Lemma diffNotifications_suppresses_shared_prefix_witness :
  exists out w',
    diffNotifications Sample.parseDate
      (Sample.host Sample.later (fun _ => false))
      [Fixture.januaryScraped] [Fixture.julyStored] Sample.start
    = (Ok out, w') /\ ~ In Fixture.januaryScraped out.
Proof.
  apply (diffNotifications_suppresses_shared_prefix
           Sample.parseDate (Sample.host Sample.later (fun _ => false))
           [Fixture.januaryScraped] [Fixture.julyStored] Sample.start
           Fixture.januaryScraped Fixture.julyStored
           (Sample.toISOString Sample.later)
           (Sample.toISOString Sample.earlier));
    [left; reflexivity | left; reflexivity | reflexivity | reflexivity
    | vm_compute; lia | vm_compute; reflexivity].
Defined.

Lemma fetchNotifications_scrapes_every_item_witness :
  exists notifications w',
    fetchNotifications asciiLowerCase Sample.toISOString Fixture.URL_href
      (Fixture.host [Fixture.goodItem]) Sample.start
    = (Ok (Some notifications), w') /\
    length notifications = 1%nat.
Proof.
  destruct (fetchNotifications_scrapes_every_item
              asciiLowerCase Sample.toISOString Fixture.URL_href
              (Fixture.host [Fixture.goodItem]) [Fixture.goodItem]
              Sample.start eq_refl eq_refl)
    as [notifications [w' [He [Hf2 _]]]].
  exists notifications, w'. split; [exact He|].
  inversion Hf2 as [|? ? ? ? _ Hrest]; subst.
  inversion Hrest; subst. reflexivity.
Defined.

Lemma fetchNotifications_bad_link_discards_page_witness :
  exists w',
    fetchNotifications asciiLowerCase Sample.toISOString Fixture.URL_href
      (Fixture.host [Fixture.goodItem; Fixture.badItem]) Sample.start
    = (Ok None, w').
Proof.
  destruct (fetchNotifications_bad_link_discards_page
              asciiLowerCase Sample.toISOString Fixture.URL_href
              (Fixture.host [Fixture.goodItem; Fixture.badItem])
              [Fixture.goodItem; Fixture.badItem] Sample.start
              eq_refl eq_refl)
    as [w' [more [He _]]].
  exists w'. exact He.
Defined.

Lemma save_then_load_witness :
  let E := Sample.host Sample.earlier (fun _ => false) in
  let stored := [Sample.scraped Sample.earlier] in
  exists w1,
    saveNotifications Sample.JSON_stringify E stored Sample.start
    = (Ok tt, w1) /\
    loadPreviousNotifications Sample.JSON_parse E w1 = (Ok stored, w1).
Proof.
  intros E stored.
  destruct (save_then_load Sample.JSON_stringify Sample.JSON_parse E stored
              Sample.start eq_refl eq_refl eq_refl)
    as [w1 [Hs [_ [_ Hl]]]].
  { vm_compute. reflexivity. }
  exists w1. split; assumption.
Defined.

Lemma monitorNotifications_skips_failed_fetch_witness :
  let E := Fixture.host [Fixture.goodItem; Fixture.badItem] in
  exists w',
    monitorNotifications asciiLowerCase Sample.toISOString Sample.parseDate
      Fixture.URL_href Sample.JSON_stringify Sample.JSON_parse
      Sample.generateEmailHTML E Sample.start
    = (Ok tt, w') /\
    sends (trace w') = [].
Proof.
  intros E.
  destruct (monitorNotifications_skips_failed_fetch
              asciiLowerCase Sample.toISOString Sample.parseDate
              Fixture.URL_href Sample.JSON_stringify Sample.JSON_parse
              Sample.generateEmailHTML E Sample.start)
    as [w' [He [_ Hs]]].
  { right. exists [Fixture.goodItem; Fixture.badItem].
    split; reflexivity. }
  exists w'. split; [exact He | exact Hs].
Defined.

Lemma monitorNotifications_deduped_witness :
  let E := Sample.host (Sample.earlier + 3600000) (fun _ => false) in
  let w := Sample.cycle Sample.earlier Sample.start in
  exists w',
    monitorNotifications asciiLowerCase Sample.toISOString Sample.parseDate
      Sample.URL_href Sample.JSON_stringify Sample.JSON_parse
      Sample.generateEmailHTML E w
    = (Ok tt, w') /\
    sends (trace w') = sends (trace w).
Proof.
  intros E w.
  destruct (monitorNotifications_deduped
              asciiLowerCase Sample.toISOString Sample.parseDate
              Sample.URL_href Sample.JSON_stringify Sample.JSON_parse
              Sample.generateEmailHTML E (Sample.earlier + 3600000)
              Sample.page [Sample.scraped Sample.earlier]
              (Sample.JSON_stringify [Sample.scraped Sample.earlier]) w)
    as [w' [He [_ Hs]]].
  - vm_compute. reflexivity.
  - reflexivity.
  - vm_compute. reflexivity.
  - reflexivity.
  - reflexivity.
  - intros k. reflexivity.
  - intros element [<-|[]].
    exists (Sample.scraped Sample.earlier), Sample.earlier.
    split; [left; reflexivity|]. split; [reflexivity|].
    split; vm_compute; reflexivity.
  - exists w'. split; [exact He | exact Hs].
Defined.

Lemma monitorNotifications_alerts_once_witness :
  let E1 := Sample.host Sample.earlier (fun _ => false) in
  let E2 := Sample.host (Sample.earlier + 3600000) (fun _ => false) in
  exists w1 w2 email,
    monitorNotifications asciiLowerCase Sample.toISOString Sample.parseDate
      Sample.URL_href Sample.JSON_stringify Sample.JSON_parse
      Sample.generateEmailHTML E1 Sample.start
    = (Ok tt, w1) /\
    monitorNotifications asciiLowerCase Sample.toISOString Sample.parseDate
      Sample.URL_href Sample.JSON_stringify Sample.JSON_parse
      Sample.generateEmailHTML E2 w1
    = (Ok tt, w2) /\
    sends (trace w1) = sends (trace Sample.start) ++ [email] /\
    sends (trace w2) = sends (trace w1).
Proof.
  intros E1 E2.
  destruct (monitorNotifications_alerts_once
              asciiLowerCase Sample.toISOString Sample.parseDate
              Sample.URL_href Sample.JSON_stringify Sample.JSON_parse
              Sample.generateEmailHTML E1 E2
              Sample.earlier (Sample.earlier + 3600000)
              Sample.page Sample.start)
    as [w1 [w2 [email [H1 [H2 [Hs1 [_ [_ [Hs2 _]]]]]]]]].
  - reflexivity.
  - discriminate.
  - reflexivity.
  - reflexivity.
  - intros k. reflexivity.
  - reflexivity.
  - intros file. reflexivity.
  - vm_compute. reflexivity.
  - vm_compute. reflexivity.
  - reflexivity.
  - intros k. reflexivity.
  - reflexivity.
  - vm_compute. reflexivity.
  - exists w1, w2, email. repeat split; assumption.
Defined.

Lemma monitorNotifications_never_realerts_witness :
  let E := Sample.host Sample.later (fun _ => false) in
  let w := Sample.cycle Sample.earlier Sample.start in
  exists w',
    monitorNotifications asciiLowerCase Sample.toISOString Sample.parseDate
      Sample.URL_href Sample.JSON_stringify Sample.JSON_parse
      Sample.generateEmailHTML E w
    = (Ok tt, w') /\
    sends (trace w') = sends (trace w).
Proof.
  intros E w.
  destruct (monitorNotifications_never_realerts
              asciiLowerCase Sample.toISOString Sample.parseDate
              Sample.URL_href Sample.JSON_stringify Sample.JSON_parse
              Sample.generateEmailHTML E
              Sample.page [Sample.scraped Sample.earlier]
              (Sample.JSON_stringify [Sample.scraped Sample.earlier]) w)
    as [w' [He [_ Hs]]].
  - vm_compute. reflexivity.
  - reflexivity.
  - vm_compute. reflexivity.
  - reflexivity.
  - reflexivity.
  - intros element [<-|[]]. split; [vm_compute; lia|].
    exists (Sample.scraped Sample.earlier),
      (Sample.toISOString Sample.earlier).
    split; [left; reflexivity|]. split; reflexivity.
  - exists w'. split; [exact He | exact Hs].
Defined.

Lemma generateNotificationId_nine_code_units_witness :
  (9 <= length Sample.notice)%nat /\
  generateNotificationId Sample.notice (Sample.toISOString Sample.earlier)
  = generateNotificationId Sample.notice (Sample.toISOString Sample.later).
Proof.
  assert (H : (9 <= length Sample.notice)%nat) by (vm_compute; lia).
  split; [exact H|].
  exact (generateNotificationId_nine_code_units
           Sample.notice (Sample.toISOString Sample.earlier)
           (Sample.toISOString Sample.later) H).
Defined.

Lemma deadline_is_urgent_or_last_date_witness :
  categorizeNotification asciiLowerCase (str "Fee deadline extended")
  = DEADLINE /\
  (detectUrgency asciiLowerCase (str "Fee deadline extended") = true \/
   occursIn asciiLowerCase (str "last date") (str "Fee deadline extended") \/
   occursIn asciiLowerCase
     [2693; 2690; 2724; 2751; 2734; 32; 2724; 2750; 2736; 2752; 2710]
     (str "Fee deadline extended")).
Proof.
  assert (H : categorizeNotification asciiLowerCase
                (str "Fee deadline extended") = DEADLINE)
    by (vm_compute; reflexivity).
  split; [exact H|].
  exact (deadline_is_urgent_or_last_date asciiLowerCase
           (fun s _ => eq_refl) (str "Fee deadline extended") H).
Defined.

Lemma empty_text_is_plain_witness :
  detectUrgency asciiLowerCase [] = false /\
  categorizeNotification asciiLowerCase [] = OTHER.
Proof.
  exact (empty_text_is_plain asciiLowerCase (fun s _ => eq_refl)
           asciiLowerCase_nonempty).
Defined.

Lemma generateNotificationId_alphabet_witness :
  Forall (fun c => In c base64Alphabet)
         (generateNotificationId Sample.notice
            (Sample.toISOString Sample.earlier)).
Proof.
  apply (generateNotificationId_alphabet Sample.notice
           (Sample.toISOString Sample.earlier));
    [apply code_units_checked; vm_compute; reflexivity
    | apply code_units_checked; vm_compute; reflexivity
    | vm_compute; lia].
Defined.
